(** * evgen::ActiveVolumeVertexSampler

    A shallow embedding of larsim's ActiveVolumeVertexSampler
    (larsim/EventGenerator/MARLEY/ActiveVolumeVertexSampler.{h,cxx}) and the
    properties of its configuration and sampling code.

    Layout: the data (double, TLorentzVector, the geometry, the FHiCL table),
    the <random> interface the sampler draws from, the sampler's state and its
    three member functions, then the lemmas. *)

From Stdlib Require Import Floats ZArith List String Bool Lia.
Import ListNotations.

(** ** Numbers *)

(** A C++ [double] is an IEEE 754 binary64 value. *)
Definition double : Set := float.

(** [std::isfinite]: neither an infinity nor a NaN. *)
Definition isfinite (x : double) : bool :=
  match Prim2SF x with
  | S754_zero _ | S754_finite _ _ _ => true
  | S754_infinity _ | S754_nan => false
  end.

(** [static_cast<uint_fast64_t>] of a (signed) seed: wrap-around modulo 2^64. *)
Definition static_cast_uint_fast64 (seed : Z) : Z := Z.modulo seed (2 ^ 64).

(** [std::seed_seq{...}]: every element of the initializer list is kept
    modulo 2^32. *)
Definition seed_seq (il : list Z) : list Z :=
  List.map (fun v => Z.modulo v (2 ^ 32)) il.

(** ** Exceptions and outcomes *)

Inductive exception : Set :=
| cet_exception (category message : string)
| std_out_of_range.

(** How a call ends: it returns, it throws, or it runs into undefined
    behaviour (dereferencing the null [fTPCDist]). *)
Inductive outcome (A : Type) : Type :=
| Returned (a : A)
| Threw (e : exception)
| Undefined.
Arguments Returned {A} a.
Arguments Threw {A} e.
Arguments Undefined {A}.

Definition returned {A} (o : outcome A) : bool :=
  match o with Returned _ => true | _ => false end.

Definition threw {A} (o : outcome A) : bool :=
  match o with Threw _ => true | _ => false end.

(** ** ROOT's TLorentzVector, as far as the sampler uses it *)
Module TLorentzVector.

Record t : Set := mk { fX : double; fY : double; fZ : double; fE : double }.

(** The default constructor gives (0, 0, 0, 0). *)
Definition zero : t := mk 0%float 0%float 0%float 0%float.

Definition SetXYZT (x y z e : double) (_ : t) : t := mk x y z e.

Definition SetT (e : double) (v : t) : t := mk (fX v) (fY v) (fZ v) e.

End TLorentzVector.

(** ** The geometry service *)
Module geo.

(** The active volume of one TPC: its box and its active mass (kg). *)
Record TPCGeo : Set := mkTPC {
  MinX : double; MaxX : double;
  MinY : double; MaxY : double;
  MinZ : double; MaxZ : double;
  ActiveMass : double
}.

(** Modelled from the spec: larcore's geo::Geometry is not part of these
    sources; it is the Cell Catalog, an ordered sequence of cells, here the
    TPCs of cryostat 0 (the cryostat [NTPC()] and [TPC(i)] default to). *)
Definition Geometry : Set := list TPCGeo.

Definition NTPC (geom : Geometry) : nat := List.length geom.

(** [geom.TPC(i)]: the i-th TPC; larcore raises a cet::exception for an
    index that names none. *)
Definition TPC (geom : Geometry) (i : nat) : outcome TPCGeo :=
  match List.nth_error geom i with
  | Some tpc => Returned tpc
  | None => Threw (cet_exception "TPCOutOfRange" "Request for non-existant TPC")
  end.

End geo.

(** ** The FHiCL table *)

(** [fhicl::Sequence<double, 3>] is read as a [std::array<double, 3>]. *)
Record array3 : Set := mkArray3 { elem0 : double; elem1 : double; elem2 : double }.

(** [std::array::at]: checked access. *)
Definition at_ (a : array3) (i : nat) : outcome double :=
  match i with
  | 0 => Returned (elem0 a)
  | 1 => Returned (elem1 a)
  | 2 => Returned (elem2 a)
  | _ => Threw std_out_of_range
  end.

(** The parameters of [struct Config] that reconfigure reads.  ([position_] is
    in the table for the type "fixed" only, where alone it is read; [seed_] is
    read by the seed service; [min_position_], [max_position_] and
    [check_active_] belong to the type "box", which the sampler does not
    dispatch on.) *)
Record Config : Set := mkConfig {
  type_ : string;
  position_ : array3;
  T0_ : double;
  SigmaT_ : double;
  time_type_ : string
}.

Inductive vertex_type_t : Set := kSampled | kFixed.
Inductive time_type_t : Set := kUniform | kGaussian.

(** ** <random>, as the sampler uses it *)

(** The engine (std::mt19937_64) and the three distributions are the C++
    standard library's; the sampler sees them through this interface.  A
    distribution applied to the engine gives a value and the engine's next
    state; how much of the engine's output one such draw uses up is the
    library's own matter.  A [discrete_distribution] is given by the weights
    it was built from.  The distributions carry nothing from one call to the
    next besides their parameters: the normal distribution is constructed
    anew in every call of sample_vertex_pos, and the static uniform one is
    always called with explicit bounds. *)
Class RandomLib : Type := {
  engine : Type;
  (** a default-constructed engine *)
  engine_default : engine;
  (** [engine.seed(seed_sequence)] *)
  engine_seed : list Z -> engine;
  discrete_distribution : list double -> engine -> nat * engine;
  uniform_real_distribution : double -> double -> engine -> double * engine;
  normal_distribution : double -> double -> engine -> double * engine
}.

(** One draw: the distribution asked and the value it gave. *)
Inductive draw : Set :=
| DiscreteDraw (weights : list double) (index : nat)
| UniformDraw (a b : double) (x : double)
| NormalDraw (mean stddev : double) (x : double).

(** The same library with an engine that also records every draw made from
    it, oldest first. *)
Definition Traced (R : RandomLib) : RandomLib := {|
  engine := (@engine R * list draw)%type;
  engine_default := (@engine_default R, []);
  engine_seed := fun sseq => (@engine_seed R sseq, []);
  discrete_distribution := fun w e =>
    let (i, e') := @discrete_distribution R w (fst e) in
    (i, (e', snd e ++ [DiscreteDraw w i]));
  uniform_real_distribution := fun a b e =>
    let (x, e') := @uniform_real_distribution R a b (fst e) in
    (x, (e', snd e ++ [UniformDraw a b x]));
  normal_distribution := fun m sd e =>
    let (x, e') := @normal_distribution R m sd (fst e) in
    (x, (e', snd e ++ [NormalDraw m sd x]))
|}.

(** The real distributions as libstdc++ and libc++ compute them: a uniform
    value as [u * (b - a) + a] from a canonical value [u] of [0, 1), a normal
    value as [z * stddev + mean] from a standard normal deviate [z].  The
    engine, the index draw and the sources of [u] and [z] are left open. *)
Definition affine_lib (E : Type) (e0 : E) (seed : list Z -> E)
    (index : list double -> E -> nat * E)
    (canonical deviate : E -> double * E) : RandomLib := {|
  engine := E;
  engine_default := e0;
  engine_seed := seed;
  discrete_distribution := index;
  uniform_real_distribution := fun a b e =>
    let (u, e') := canonical e in ((u * (b - a) + a)%float, e');
  normal_distribution := fun m sd e =>
    let (z, e') := deviate e in ((z * sd + m)%float, e')
|}.

(** A small concrete library to run the sampler on: a 4-bit linear
    congruential engine (of full period 16); the index is taken below the
    number of weights, a uniform draw gives one of its two end points, a
    normal draw its mean or a point one deviation away. *)
Module Lcg.

Definition step (e : nat) : nat := Nat.modulo (5 * e + 3) 16.

(** The two high bits of the state. *)
Definition bits (e : nat) : nat := Nat.div e 4.

Definition seed (sseq : list Z) : nat :=
  List.fold_left
    (fun acc v => step (Nat.modulo (acc + Z.to_nat (Z.modulo v 16)) 16))
    sseq 0.

Definition lib : RandomLib := {|
  engine := nat;
  engine_default := 0;
  engine_seed := seed;
  discrete_distribution := fun w e =>
    (Nat.modulo (bits e) (Nat.max 1 (List.length w)), step e);
  uniform_real_distribution := fun a b e =>
    (if Nat.even (bits e) then a else b, step e);
  normal_distribution := fun m sd e =>
    (if Nat.even (bits e) then m else (m + sd)%float, step e)
|}.

(** The same engine under the formulas of [affine_lib]: the canonical value
    is one of 0, 1/4, 1/2, 3/4, the deviate one of -3/2, -1/2, 1/2, 3/2. *)
Definition canonical (e : nat) : double * nat :=
  (match bits e with
   | 0 => 0 | 1 => 0.25 | 2 => 0.5 | _ => 0.75
   end%float, step e).

Definition deviate (e : nat) : double * nat :=
  (match bits e with
   | 0 => -1.5 | 1 => -0.5 | 2 => 0.5 | _ => 1.5
   end%float, step e).

Definition affine : RandomLib :=
  affine_lib nat 0 seed
    (fun w e => (Nat.modulo (bits e) (Nat.max 1 (List.length w)), step e))
    canonical deviate.

End Lcg.

(** ** The seed service *)

(** Modelled from the spec: nutools' NuRandomService is not part of these
    sources; it is the Seed source.  [registerEngine] hands back one seed for
    the instance, and may run the seeder it was given, here on each of
    [seeder_calls] in turn, before it returns. *)
Record NuRandomService : Set := mkService {
  registered_seed : Z;
  seeder_calls : list Z
}.

(** ** The sampler *)

Section Sampler.

Context {R : RandomLib}.

(** The data members of the class, in declaration order. *)
Record Sampler : Type := mkSampler {
  fVertexPosition : TLorentzVector.t;
  fVertexType : vertex_type_t;
  fTimeType : time_type_t;
  fGeneratorName : string;
  fT0 : double;
  fSigmaT : double;
  fTPCDist : option (list double);
  fTPCEngine : engine
}.

Definition set_fVertexPosition (v : TLorentzVector.t) (s : Sampler) : Sampler :=
  mkSampler v (fVertexType s) (fTimeType s) (fGeneratorName s) (fT0 s)
    (fSigmaT s) (fTPCDist s) (fTPCEngine s).

Definition set_fVertexType (k : vertex_type_t) (s : Sampler) : Sampler :=
  mkSampler (fVertexPosition s) k (fTimeType s) (fGeneratorName s) (fT0 s)
    (fSigmaT s) (fTPCDist s) (fTPCEngine s).

Definition set_fTimeType (k : time_type_t) (s : Sampler) : Sampler :=
  mkSampler (fVertexPosition s) (fVertexType s) k (fGeneratorName s) (fT0 s)
    (fSigmaT s) (fTPCDist s) (fTPCEngine s).

Definition set_fT0 (x : double) (s : Sampler) : Sampler :=
  mkSampler (fVertexPosition s) (fVertexType s) (fTimeType s)
    (fGeneratorName s) x (fSigmaT s) (fTPCDist s) (fTPCEngine s).

Definition set_fSigmaT (x : double) (s : Sampler) : Sampler :=
  mkSampler (fVertexPosition s) (fVertexType s) (fTimeType s)
    (fGeneratorName s) (fT0 s) x (fTPCDist s) (fTPCEngine s).

Definition set_fTPCDist (d : option (list double)) (s : Sampler) : Sampler :=
  mkSampler (fVertexPosition s) (fVertexType s) (fTimeType s)
    (fGeneratorName s) (fT0 s) (fSigmaT s) d (fTPCEngine s).

Definition set_fTPCEngine (e : engine) (s : Sampler) : Sampler :=
  mkSampler (fVertexPosition s) (fVertexType s) (fTimeType s)
    (fGeneratorName s) (fT0 s) (fSigmaT s) (fTPCDist s) e.

(** *** Member functions: state passing with exceptions

    A member function takes the object's state and gives how the call ended
    together with the state it left the object in; an exception keeps the
    assignments made before it was thrown. *)
Definition M (A : Type) : Type := Sampler -> outcome A * Sampler.

Definition ret {A} (a : A) : M A := fun s => (Returned a, s).

Definition bind {A B} (m : M A) (k : A -> M B) : M B :=
  fun s =>
    match m s with
    | (Returned a, s') => k a s'
    | (Threw e, s') => (Threw e, s')
    | (Undefined, s') => (Undefined, s')
    end.

Definition throw {A} (e : exception) : M A := fun s => (Threw e, s).

Definition lift {A} (o : outcome A) : M A := fun s => (o, s).

Definition gets {A} (f : Sampler -> A) : M A := fun s => (Returned (f s), s).

Definition modify (f : Sampler -> Sampler) : M unit := fun s => (Returned tt, f s).

(** A distribution called on [fTPCEngine]. *)
Definition on_engine {A} (d : engine -> A * engine) : M A :=
  fun s => let (a, e) := d (fTPCEngine s) in (Returned a, set_fTPCEngine e s).

(** [fTPCDist->operator()]: a null pointer may not be dereferenced. *)
Definition deref_fTPCDist : M (list double) :=
  fun s =>
    match fTPCDist s with
    | Some weights => (Returned weights, s)
    | None => (Undefined, s)
    end.

End Sampler.

Arguments Sampler R : clear implicits.
Arguments M R A : clear implicits.

Declare Scope sampler_scope.
Delimit Scope sampler_scope with sampler.
Notation "x <- m ;; k" := (bind m (fun x => k))
  (at level 61, m at next level, right associativity) : sampler_scope.
Notation "m ;;; k" := (bind m (fun _ => k))
  (at level 61, right associativity) : sampler_scope.

Section MemberFunctions.

Context {R : RandomLib}.
Local Open Scope sampler_scope.

(** The loop of reconfigure that collects the active masses:
    [for (iTPC = 0; iTPC < num_tpcs; ++iTPC) tpc_masses.push_back(...)],
    with [todo] iterations left. *)
Fixpoint collect_tpc_masses (geom : geo.Geometry) (todo iTPC : nat)
    (tpc_masses : list double) : outcome (list double) :=
  match todo with
  | O => Returned tpc_masses
  | S todo' =>
      match geo.TPC geom iTPC with
      | Returned tpc =>
          collect_tpc_masses geom todo' (S iTPC)
            (tpc_masses ++ [geo.ActiveMass tpc])
      | Threw e => Threw e
      | Undefined => Undefined
      end
  end.

Definition invalid_vertex_type (name type : string) : exception :=
  cet_exception ("ActiveVolumeVertexSampler " ++ name)%string
    ("Invalid vertex type '" ++ type
     ++ "' requested. Allowed values are 'sampled' and 'fixed'")%string.

Definition invalid_time_type (name time_type : string) : exception :=
  cet_exception ("ActiveVolumeVertexSampler " ++ name)%string
    ("Invalid vertex time type '" ++ time_type
     ++ "' requested. Allowed values are 'uniform' and 'gaussian'")%string.

(** [ActiveVolumeVertexSampler::reconfigure]. *)
Definition reconfigure (conf : Config) (geom : geo.Geometry) : M R unit :=
  let type := type_ conf in
  (if (type =? "sampled")%string then
     modify (set_fVertexType kSampled) ;;;
     let num_tpcs := geo.NTPC geom in
     tpc_masses <- lift (collect_tpc_masses geom num_tpcs 0 []) ;;
     modify (set_fTPCDist (Some tpc_masses))
   else if (type =? "fixed")%string then
     modify (set_fVertexType kFixed) ;;;
     let vertex_pos := position_ conf in
     Vx <- lift (at_ vertex_pos 0) ;;
     Vy <- lift (at_ vertex_pos 0) ;;
     Vz <- lift (at_ vertex_pos 0) ;;
     modify (fun s =>
       set_fVertexPosition
         (TLorentzVector.SetXYZT Vx Vy Vz 0%float (fVertexPosition s)) s)
   else
     name <- gets fGeneratorName ;;
     throw (invalid_vertex_type name type)) ;;;
  let time_type := time_type_ conf in
  (if (time_type =? "uniform")%string then modify (set_fTimeType kUniform)
   else if (time_type =? "gaussian")%string then modify (set_fTimeType kGaussian)
   else
     name <- gets fGeneratorName ;;
     throw (invalid_time_type name time_type)) ;;;
  modify (set_fT0 (T0_ conf)) ;;;
  modify (set_fSigmaT (SigmaT_ conf)).

(** The time draw of sample_vertex_pos, on a given engine. *)
Definition time_distribution (k : time_type_t) (t0 sigma : double)
    : engine -> double * engine :=
  match k with
  | kGaussian => normal_distribution t0 sigma
  | kUniform =>
      let min_t := (t0 - sigma)%float in
      let max_t := (t0 + sigma)%float in
      uniform_real_distribution min_t max_t
  end.

(** [ActiveVolumeVertexSampler::sample_vertex_pos].  (The messages sent to the
    logger are left out; the function-local static [uniform_dist] is always
    called with explicit parameters and holds no other state.) *)
Definition sample_vertex_pos (geom : geo.Geometry) : M R TLorentzVector.t :=
  vertex_type <- gets fVertexType ;;
  match vertex_type with
  | kSampled =>
      dist <- deref_fTPCDist ;;
      tpc_index <- on_engine (discrete_distribution dist) ;;
      tpc <- lift (geo.TPC geom tpc_index) ;;
      let minX := geo.MinX tpc in
      let maxX := geo.MaxX tpc in
      let minY := geo.MinY tpc in
      let maxY := geo.MaxY tpc in
      let minZ := geo.MinZ tpc in
      let maxZ := geo.MaxZ tpc in
      x <- on_engine (uniform_real_distribution minX maxX) ;;
      y <- on_engine (uniform_real_distribution minY maxY) ;;
      z <- on_engine (uniform_real_distribution minZ maxZ) ;;
      modify (fun s =>
        set_fVertexPosition
          (TLorentzVector.SetXYZT x y z 0%float (fVertexPosition s)) s)
  | kFixed => ret tt
  end ;;;
  time_type <- gets fTimeType ;;
  t0 <- gets fT0 ;;
  sigma <- gets fSigmaT ;;
  t <- on_engine (time_distribution time_type t0 sigma) ;;
  modify (fun s =>
    set_fVertexPosition (TLorentzVector.SetT t (fVertexPosition s)) s) ;;;
  gets fVertexPosition.

(** The seeder lambda registered with the seed service. *)
Definition seeder (lar_seed : Z) (s : Sampler R) : Sampler R :=
  let seed := static_cast_uint_fast64 lar_seed in
  set_fTPCEngine (engine_seed (seed_seq [seed])) s.

(** [rand_service.registerEngine(seeder, ...)], seen from the sampler. *)
Definition registerEngine (rand_service : NuRandomService)
    (s : Sampler R) : Z * Sampler R :=
  (registered_seed rand_service,
   List.fold_left (fun s lar_seed => seeder lar_seed s)
     (seeder_calls rand_service) s).

(** The constructor.  [fTimeType] is absent from the initializer list:
    [indeterminate] stands for whatever the member holds before reconfigure
    assigns it.  An exception leaving the constructor leaves no object. *)
Definition ActiveVolumeVertexSampler (conf : Config)
    (rand_service : NuRandomService) (geom : geo.Geometry)
    (generator_name : string) (indeterminate : time_type_t)
    : outcome (Sampler R) :=
  let this :=
    {| fVertexPosition := TLorentzVector.zero;
       fVertexType := kSampled;
       fTimeType := indeterminate;
       fGeneratorName := generator_name;
       fT0 := 0%float;
       fSigmaT := 0%float;
       fTPCDist := None;
       fTPCEngine := engine_default |} in
  match reconfigure conf geom this with
  | (Returned _, this) =>
      let (tpc_seed, this) := registerEngine rand_service this in
      let tpc_cast_seed := static_cast_uint_fast64 tpc_seed in
      Returned (set_fTPCEngine (engine_seed (seed_seq [tpc_cast_seed])) this)
  | (Threw e, _) => Threw e
  | (Undefined, _) => Undefined
  end.

(** [n] calls of sample_vertex_pos in a row: how each ended, and the state
    after the last. *)
Fixpoint sample_n (n : nat) (geom : geo.Geometry) (s : Sampler R)
    : list (outcome TLorentzVector.t) * Sampler R :=
  match n with
  | O => ([], s)
  | S n' =>
      let (o, s1) := sample_vertex_pos geom s in
      let (os, s2) := sample_n n' geom s1 in
      (o :: os, s2)
  end.

(** One run: construct a sampler, then call sample_vertex_pos [n] times. *)
Definition run (conf : Config) (rand_service : NuRandomService)
    (geom : geo.Geometry) (generator_name : string)
    (indeterminate : time_type_t) (n : nat)
    : outcome (list (outcome TLorentzVector.t)) :=
  match ActiveVolumeVertexSampler conf rand_service geom generator_name
          indeterminate with
  | Returned s => Returned (fst (sample_n n geom s))
  | Threw e => Threw e
  | Undefined => Undefined
  end.

End MemberFunctions.


(** ** Vocabulary of the statements *)

(** The time law a [time_type] string selects, if any. *)
Definition parse_time_type (time_type : string) : option time_type_t :=
  if (time_type =? "uniform")%string then Some kUniform
  else if (time_type =? "gaussian")%string then Some kGaussian
  else None.

(** The vertex mode a [type] string selects, if any. *)
Definition parse_vertex_type (type : string) : option vertex_type_t :=
  if (type =? "sampled")%string then Some kSampled
  else if (type =? "fixed")%string then Some kFixed
  else None.

Definition with_time_type (time_type : string) (conf : Config) : Config :=
  mkConfig (type_ conf) (position_ conf) (T0_ conf) (SigmaT_ conf) time_type.

Definition with_position (p : array3) (conf : Config) : Config :=
  mkConfig (type_ conf) p (T0_ conf) (SigmaT_ conf) (time_type_ conf).

(** The draw that [time_distribution] makes, with the value [t] it gave. *)
Definition time_draw (k : time_type_t) (t0 sigma t : double) : draw :=
  match k with
  | kGaussian => NormalDraw t0 sigma t
  | kUniform => UniformDraw (t0 - sigma)%float (t0 + sigma)%float t
  end.

(** The active masses of the geometry, in TPC order. *)
Definition active_masses (geom : geo.Geometry) : list double :=
  List.map geo.ActiveMass geom.

(** A catalog whose total active mass is zero: no cell has any mass. *)
Definition massless (geom : geo.Geometry) : bool :=
  List.forallb (fun tpc => (geo.ActiveMass tpc =? 0)%float) geom.

(** The box of a cell as the data model has it: on each axis min <= max, and
    the extent max - min is a finite number. *)
Definition axis_ok (lo hi : double) : bool :=
  (lo <=? hi)%float && isfinite (hi - lo)%float.

Definition box_ok (tpc : geo.TPCGeo) : bool :=
  axis_ok (geo.MinX tpc) (geo.MaxX tpc)
  && axis_ok (geo.MinY tpc) (geo.MaxY tpc)
  && axis_ok (geo.MinZ tpc) (geo.MaxZ tpc).

(** [lo <= x <= hi]. *)
Definition within (lo hi x : double) : Prop :=
  (lo <=? x)%float = true /\ (x <=? hi)%float = true.

(** *** What the C++ standard library is relied on for *)

(** [uniform_real_distribution(a, b)], called within its precondition (a <= b
    and b - a representable), gives a value between a and b. *)
Definition uniform_real_contract (R : RandomLib) : Prop :=
  forall (a b : double) (e : engine),
    axis_ok a b = true ->
    within a b (fst (uniform_real_distribution a b e)).

(** [uniform_real_distribution(a, b)] over an interval that is a single
    finite point gives that point. *)
Definition uniform_degenerate_contract (R : RandomLib) : Prop :=
  forall (a b : double) (e : engine),
    (a =? b)%float = true -> isfinite a = true ->
    (fst (uniform_real_distribution a b e) =? a)%float = true.

(** A [normal_distribution] of deviation zero gives its mean. *)
Definition normal_degenerate_contract (R : RandomLib) : Prop :=
  forall (m sd : double) (e : engine),
    (sd =? 0)%float = true -> isfinite m = true ->
    (fst (normal_distribution m sd e) =? m)%float = true.

(** A [discrete_distribution] over n weights gives an index below n (below 1
    when it was built from no weight at all). *)
Definition discrete_contract (R : RandomLib) : Prop :=
  forall (w : list double) (e : engine),
    fst (discrete_distribution w e) < Nat.max 1 (List.length w).

Section StateRelations.

Context {R : RandomLib}.

(** The part of the state that the [type] branch of reconfigure writes. *)
Definition vertex_state_eq (s s' : Sampler R) : Prop :=
  fVertexType s = fVertexType s'
  /\ fVertexPosition s = fVertexPosition s'
  /\ fTPCDist s = fTPCDist s'.

(** The part that the [time_type], [T0] and [SigmaT] lines write. *)
Definition time_state_eq (s s' : Sampler R) : Prop :=
  fTimeType s = fTimeType s'
  /\ fT0 s = fT0 s'
  /\ fSigmaT s = fSigmaT s'.

(** What sample_vertex_pos never writes. *)
Definition configuration_eq (s s' : Sampler R) : Prop :=
  fVertexType s = fVertexType s'
  /\ fTimeType s = fTimeType s'
  /\ fGeneratorName s = fGeneratorName s'
  /\ fT0 s = fT0 s'
  /\ fSigmaT s = fSigmaT s'
  /\ fTPCDist s = fTPCDist s'.

(** The position part of a vertex. *)
Definition same_xyz (v v' : TLorentzVector.t) : Prop :=
  TLorentzVector.fX v = TLorentzVector.fX v'
  /\ TLorentzVector.fY v = TLorentzVector.fY v'
  /\ TLorentzVector.fZ v = TLorentzVector.fZ v'.

(** In sampled mode the distribution pointer is not null. *)
Definition has_distribution (s : Sampler R) : Prop :=
  fVertexType s = kSampled -> fTPCDist s <> None.

(** Forget the record of draws. *)
Definition untraced (s : Sampler (Traced R)) : Sampler R :=
  mkSampler (fVertexPosition s) (fVertexType s) (fTimeType s)
    (fGeneratorName s) (fT0 s) (fSigmaT s) (fTPCDist s) (fst (fTPCEngine s)).

(** The draws recorded so far. *)
Definition draws (s : Sampler (Traced R)) : list draw := snd (fTPCEngine s).

End StateRelations.

(** ** Concrete inputs *)
Module Scenario.

Local Open Scope float_scope.
Local Open Scope string_scope.

(** Two cells: x in [0, 10] with mass 1, x in [100, 110] with mass 3; y and z
    in [0, 10] for both. *)
Definition cell0 : geo.TPCGeo := geo.mkTPC 0 10 0 10 0 10 1.
Definition cell1 : geo.TPCGeo := geo.mkTPC 100 110 0 10 0 10 3.
Definition two_cells : geo.Geometry := [cell0; cell1].

(** A cell that is flat in x and holds no mass. *)
Definition flat_cell : geo.TPCGeo := geo.mkTPC 5 5 0 10 0 10 0.
Definition flat_geometry : geo.Geometry := [flat_cell].

Definition no_position : array3 := mkArray3 0 0 0.

Definition sampled_uniform : Config :=
  mkConfig "sampled" no_position 5 1 "uniform".

Definition fixed_123 : Config :=
  mkConfig "fixed" (mkArray3 1 2 3) 5 1 "uniform".

Definition fixed_exponential : Config :=
  mkConfig "fixed" (mkArray3 1 2 3) 7 2 "exponential".

Definition negative_spread : Config :=
  mkConfig "sampled" no_position 5 (-1) "uniform".

Definition sampled_zero_spread : Config :=
  mkConfig "sampled" no_position 5 0 "uniform".

Definition name : string := "MARLEY_Vertex_Sampler".

Definition seed42 : NuRandomService := mkService 42 [42%Z].

(** The sampler of the scenario, constructed over [two_cells] and then seen
    through its fields: sampled mode, uniform time, T0 = 5, SigmaT = 1. *)
Definition configured : Sampler Lcg.lib :=
  mkSampler TLorentzVector.zero kSampled kUniform name 5 1
    (Some (active_masses two_cells))
    (@engine_seed Lcg.lib (seed_seq [static_cast_uint_fast64 42])).

(** The same sampler configured over [flat_geometry]. *)
Definition configured_flat : Sampler Lcg.lib :=
  mkSampler TLorentzVector.zero kSampled kUniform name 5 1
    (Some (active_masses flat_geometry))
    (@engine_seed Lcg.lib (seed_seq [static_cast_uint_fast64 42])).

Definition configured_traced : Sampler (Traced Lcg.lib) :=
  mkSampler TLorentzVector.zero kSampled kUniform name 5 1
    (Some (active_masses two_cells))
    (@engine_seed (Traced Lcg.lib) (seed_seq [static_cast_uint_fast64 42])).

Definition fixed_traced : Sampler (Traced Lcg.lib) :=
  mkSampler (TLorentzVector.mk 1 1 1 0) kFixed kGaussian name 5 1 None
    (@engine_seed (Traced Lcg.lib) (seed_seq [static_cast_uint_fast64 42])).

End Scenario.


(** ** The conditional parameters of the table *)

(** The conditions that [struct Config] attaches to its conditional
    parameters: each says, from the value of [type], whether the table takes
    the parameter. *)
Definition use_seed_ (type : string) : bool := (type =? "sampled")%string.

Definition use_position_ (type : string) : bool := (type =? "fixed")%string.

Definition use_min_position_ (type : string) : bool := (type =? "box")%string.

Definition use_max_position_ (type : string) : bool := (type =? "box")%string.

Definition use_check_active_ (type : string) : bool := (type =? "box")%string.

(** ** Sequences of calls on one sampler *)

Definition undefined {A} (o : outcome A) : bool :=
  match o with Undefined => true | _ => false end.

(** A call of one of the two public member functions. *)
Inductive call : Set :=
| call_reconfigure (conf : Config) (geom : geo.Geometry)
| call_sample_vertex_pos (geom : geo.Geometry).

Section Calls.

Context {R : RandomLib}.

(** The state one call leaves, and whether it ran into undefined behaviour. *)
Definition perform (c : call) (s : Sampler R) : bool * Sampler R :=
  match c with
  | call_reconfigure conf geom =>
      let (o, s') := reconfigure conf geom s in (undefined o, s')
  | call_sample_vertex_pos geom =>
      let (o, s') := sample_vertex_pos geom s in (undefined o, s')
  end.

(** Whether any call of a sequence, made in order on [s], runs into undefined
    behaviour; a thrown exception is caught and the next call made. *)
Fixpoint any_undefined (calls : list call) (s : Sampler R) : bool :=
  match calls with
  | [] => false
  | c :: calls' =>
      let (u, s') := perform c s in u || any_undefined calls' s'
  end.

(** Two states that no call of sample_vertex_pos can tell apart: the same
    configuration and engine, and of the rest what the mode reads, the
    distribution in sampled mode, the cached x, y, z in fixed mode. *)
Definition observably_equal (s1 s2 : Sampler R) : Prop :=
  fVertexType s1 = fVertexType s2
  /\ fTimeType s1 = fTimeType s2
  /\ fT0 s1 = fT0 s2
  /\ fSigmaT s1 = fSigmaT s2
  /\ fTPCEngine s1 = fTPCEngine s2
  /\ match fVertexType s1 with
     | kSampled => fTPCDist s1 = fTPCDist s2
     | kFixed => same_xyz (fVertexPosition s1) (fVertexPosition s2)
     end.

End Calls.

(** A vertex whose position lies in the box of a TPC. *)
Definition inside (tpc : geo.TPCGeo) (v : TLorentzVector.t) : Prop :=
  within (geo.MinX tpc) (geo.MaxX tpc) (TLorentzVector.fX v)
  /\ within (geo.MinY tpc) (geo.MaxY tpc) (TLorentzVector.fY v)
  /\ within (geo.MinZ tpc) (geo.MaxZ tpc) (TLorentzVector.fZ v).

(** ** Further concrete inputs *)
Module Examples.

Local Open Scope float_scope.
Local Open Scope string_scope.

(** The type that the table reserves parameters for and the sampler does not
    know, here with a time type it does not know either. *)
Definition box : Config :=
  mkConfig "box" Scenario.no_position 5 1 "exponential".

(** Seeds that differ in bit 32 only. *)
Definition seed42_high : NuRandomService := mkService (42 + 2 ^ 32) [].

(** Calls made on the sampler of the scenario: sampling, a rejected
    reconfiguration, sampling over no geometry, a change to fixed mode and
    back. *)
Definition some_calls : list call :=
  [call_sample_vertex_pos Scenario.two_cells;
   call_reconfigure Scenario.fixed_exponential Scenario.two_cells;
   call_sample_vertex_pos [];
   call_reconfigure Scenario.fixed_123 [];
   call_sample_vertex_pos [];
   call_reconfigure box Scenario.two_cells;
   call_reconfigure Scenario.sampled_uniform Scenario.flat_geometry;
   call_sample_vertex_pos Scenario.flat_geometry].

End Examples.

(** * Properties *)

(** ** Order and arithmetic of binary64 values *)

Local Open Scope float_scope.

Ltac by_comparisons :=
  repeat match goal with
  | H : context [Pos.compare_cont Eq ?a ?b] |- _ =>
      change (Pos.compare_cont Eq a b) with (Pos.compare a b) in H
  | |- context [Pos.compare_cont Eq ?a ?b] =>
      change (Pos.compare_cont Eq a b) with (Pos.compare a b)
  end;
  repeat match goal with
  | H : context [Z.compare ?a ?b] |- _ => destruct (Z.compare_spec a b)
  | |- context [Z.compare ?a ?b] => destruct (Z.compare_spec a b)
  | H : context [Pos.compare ?a ?b] |- _ => destruct (Pos.compare_spec a b)
  | |- context [Pos.compare ?a ?b] => destruct (Pos.compare_spec a b)
  end.

Ltac by_float_cases :=
  simpl; try discriminate; try reflexivity;
  repeat match goal with s : bool |- _ => destruct s end;
  simpl; try discriminate; try reflexivity;
  by_comparisons; simpl; try discriminate; try reflexivity;
  intros; subst; try lia.

Lemma SFleb_trans (x y z : spec_float) :
  SFleb x y = true -> SFleb y z = true -> SFleb x z = true.
Proof.
  unfold SFleb.
  destruct x as [sx|sx| |sx mx ex], y as [sy|sy| |sy my ey],
    z as [sz|sz| |sz mz ez]; by_float_cases.
Qed.

Lemma SFleb_antisym (x y : spec_float) :
  SFleb x y = true -> SFleb y x = true -> SFeqb x y = true.
Proof.
  unfold SFleb, SFeqb.
  destruct x as [sx|sx| |sx mx ex], y as [sy|sy| |sy my ey]; by_float_cases.
Qed.

Lemma SFeqb_SFleb (x y : spec_float) :
  SFeqb x y = true -> SFleb x y = true.
Proof.
  unfold SFleb, SFeqb.
  destruct (SFcompare x y) as [[ | | ]|]; intros; try discriminate; reflexivity.
Qed.

Lemma SFeqb_sym (x y : spec_float) :
  SFeqb x y = true -> SFeqb y x = true.
Proof.
  unfold SFeqb.
  destruct x as [sx|sx| |sx mx ex], y as [sy|sy| |sy my ey]; by_float_cases.
Qed.

Lemma SFleb_refl_left (x y : spec_float) :
  SFleb x y = true -> SFleb x x = true.
Proof.
  unfold SFleb.
  destruct x as [sx|sx| |sx mx ex], y as [sy|sy| |sy my ey]; by_float_cases.
Qed.

Lemma SFleb_refl_right (x y : spec_float) :
  SFleb x y = true -> SFleb y y = true.
Proof.
  unfold SFleb.
  destruct x as [sx|sx| |sx mx ex], y as [sy|sy| |sy my ey]; by_float_cases.
Qed.

Lemma SFeqb_refl_finite (s : bool) (m : positive) (e : Z) :
  SFeqb (S754_finite s m e) (S754_finite s m e) = true.
Proof.
  unfold SFeqb; simpl.
  destruct s; rewrite Z.compare_refl;
    change (Pos.compare_cont Eq m m) with (Pos.compare m m);
    rewrite Pos.compare_refl; reflexivity.
Qed.

Lemma leb_trans (x y z : double) :
  (x <=? y) = true -> (y <=? z) = true -> (x <=? z) = true.
Proof. rewrite !FloatAxioms.leb_spec. apply SFleb_trans. Qed.

Lemma leb_antisym (x y : double) :
  (x <=? y) = true -> (y <=? x) = true -> (x =? y) = true.
Proof.
  rewrite !FloatAxioms.leb_spec, FloatAxioms.eqb_spec. apply SFleb_antisym.
Qed.

Lemma eqb_leb (x y : double) : (x =? y) = true -> (x <=? y) = true.
Proof.
  rewrite FloatAxioms.leb_spec, FloatAxioms.eqb_spec. apply SFeqb_SFleb.
Qed.

Lemma eqb_sym (x y : double) : (x =? y) = true -> (y =? x) = true.
Proof. rewrite !FloatAxioms.eqb_spec. apply SFeqb_sym. Qed.

Lemma leb_refl_left (x y : double) : (x <=? y) = true -> (x <=? x) = true.
Proof. rewrite !FloatAxioms.leb_spec. apply SFleb_refl_left. Qed.

Lemma leb_refl_right (x y : double) : (x <=? y) = true -> (y <=? y) = true.
Proof. rewrite !FloatAxioms.leb_spec. apply SFleb_refl_right. Qed.

Lemma eqb_refl_finite (x : double) : isfinite x = true -> (x =? x) = true.
Proof.
  unfold isfinite. rewrite FloatAxioms.eqb_spec.
  destruct (Prim2SF x) as [s|s| |s m e]; try discriminate; intros _.
  - reflexivity.
  - apply SFeqb_refl_finite.
Qed.

(** A value between two bounds that both equal [c] equals [c]. *)
Lemma squeezed (a b c x : double) :
  (a <=? x) = true -> (x <=? b) = true ->
  (a =? c) = true -> (b =? c) = true -> (x =? c) = true.
Proof.
  intros Hax Hxb Hac Hbc.
  apply leb_antisym.
  - apply leb_trans with b; [exact Hxb | now apply eqb_leb].
  - apply leb_trans with a; [now apply eqb_leb, eqb_sym | exact Hax].
Qed.

Lemma eqb_zero_inv (sigma : double) :
  (sigma =? 0) = true -> exists s, Prim2SF sigma = S754_zero s.
Proof.
  rewrite FloatAxioms.eqb_spec. change (Prim2SF 0) with (S754_zero false).
  unfold SFeqb.
  destruct (Prim2SF sigma) as [s|s| |s m e]; simpl; try discriminate.
  - intros _. now exists s.
  - destruct s; discriminate.
  - destruct s; discriminate.
Qed.

(** Taking a zero away from a finite number, or adding one, leaves it. *)
Lemma sub_zero (t0 sigma : double) :
  (sigma =? 0) = true -> isfinite t0 = true -> ((t0 - sigma) =? t0) = true.
Proof.
  intros Hs Hf. destruct (eqb_zero_inv _ Hs) as [s Hs'].
  rewrite FloatAxioms.eqb_spec, FloatAxioms.sub_spec, Hs'.
  unfold isfinite in Hf. unfold SF64sub.
  destruct (Prim2SF t0) as [s0|s0| |s0 m0 e0]; try discriminate.
  - destruct s0, s; reflexivity.
  - simpl. apply SFeqb_refl_finite.
Qed.

Lemma add_zero (t0 sigma : double) :
  (sigma =? 0) = true -> isfinite t0 = true -> ((t0 + sigma) =? t0) = true.
Proof.
  intros Hs Hf. destruct (eqb_zero_inv _ Hs) as [s Hs'].
  rewrite FloatAxioms.eqb_spec, FloatAxioms.add_spec, Hs'.
  unfold isfinite in Hf. unfold SF64add.
  destruct (Prim2SF t0) as [s0|s0| |s0 m0 e0]; try discriminate.
  - destruct s0, s; reflexivity.
  - simpl. apply SFeqb_refl_finite.
Qed.

Lemma SFcompare_finite_Eq (s1 : bool) (m1 : positive) (e1 : Z)
    (s2 : bool) (m2 : positive) (e2 : Z) :
  SFcompare (S754_finite s1 m1 e1) (S754_finite s2 m2 e2) = Some Eq ->
  s1 = s2 /\ m1 = m2 /\ e1 = e2.
Proof.
  simpl. destruct s1, s2; try discriminate;
    by_comparisons; simpl; try discriminate; intros; subst; auto.
Qed.

(** An axis whose two finite bounds are equal is within the precondition of
    the uniform distribution. *)
Lemma degenerate_axis_ok (a b : double) :
  (a =? b) = true -> isfinite a = true -> axis_ok a b = true.
Proof.
  intros Hab Hf. unfold axis_ok. rewrite (eqb_leb _ _ Hab). simpl.
  revert Hab Hf. unfold isfinite.
  rewrite FloatAxioms.eqb_spec, FloatAxioms.sub_spec. unfold SFeqb, SF64sub.
  destruct (Prim2SF a) as [sa|sa| |sa ma ea] eqn:Ea; try discriminate;
  destruct (Prim2SF b) as [sb|sb| |sb mb eb] eqn:Eb;
  try (simpl; repeat match goal with s : bool |- _ => destruct s end;
       simpl; intros; (discriminate || reflexivity)).
  destruct (SFcompare (S754_finite sa ma ea) (S754_finite sb mb eb))
    as [[| |]|] eqn:Ec; try discriminate.
  apply SFcompare_finite_Eq in Ec. destruct Ec as (-> & -> & ->).
  intros _ _. simpl. rewrite Z.sub_diag. reflexivity.
Qed.

(** Equal doubles are finite together. *)
Lemma eqb_isfinite (a b : double) :
  (a =? b) = true -> isfinite b = true -> isfinite a = true.
Proof.
  unfold isfinite. rewrite FloatAxioms.eqb_spec. unfold SFeqb.
  destruct (Prim2SF a) as [sa|sa| |sa ma ea];
    destruct (Prim2SF b) as [sb|sb| |sb mb eb];
    simpl; try discriminate; try reflexivity;
    destruct sa; intros; discriminate.
Qed.

(** The difference of two equal finite doubles is a zero. *)
Lemma sub_equal_is_zero (a b : double) :
  (a =? b) = true -> isfinite a = true -> ((b - a) =? 0) = true.
Proof.
  rewrite !FloatAxioms.eqb_spec, FloatAxioms.sub_spec.
  change (Prim2SF 0) with (S754_zero false).
  unfold isfinite, SFeqb, SF64sub.
  destruct (Prim2SF a) as [sa|sa| |sa ma ea] eqn:Ea; try discriminate;
  destruct (Prim2SF b) as [sb|sb| |sb mb eb] eqn:Eb;
  try (simpl; repeat match goal with s : bool |- _ => destruct s end;
       simpl; intros; (discriminate || reflexivity)).
  destruct (SFcompare (S754_finite sa ma ea) (S754_finite sb mb eb))
    as [[| |]|] eqn:Ec; try discriminate.
  apply SFcompare_finite_Eq in Ec. destruct Ec as (-> & -> & ->).
  intros _ _. simpl. rewrite Z.sub_diag. reflexivity.
Qed.

(** A finite factor times a zero scale, added to a finite offset, is the
    offset. *)
Lemma affine_at_zero_scale (u scale offset : double) :
  isfinite u = true -> (scale =? 0) = true -> isfinite offset = true ->
  ((u * scale + offset) =? offset) = true.
Proof.
  intros Hu Hs Ho. destruct (eqb_zero_inv _ Hs) as [s Hs'].
  unfold isfinite in Hu, Ho.
  rewrite FloatAxioms.eqb_spec, FloatAxioms.add_spec, FloatAxioms.mul_spec, Hs'.
  unfold SF64add, SF64mul.
  destruct (Prim2SF u) as [su|su| |su mu eu]; try discriminate;
    destruct (Prim2SF offset) as [so|so| |so mo eo]; try discriminate;
    simpl.
  - destruct (xorb su s), so; reflexivity.
  - apply SFeqb_refl_finite.
  - destruct (xorb su s), so; reflexivity.
  - apply SFeqb_refl_finite.
Qed.

(** ** The concrete library keeps the contracts *)

Lemma Lcg_uniform_real_contract : uniform_real_contract Lcg.lib.
Proof.
  intros a b e Hab. unfold axis_ok in Hab.
  apply andb_prop in Hab. destruct Hab as [Hab _].
  unfold within. cbn [uniform_real_distribution Lcg.lib fst].
  destruct (Nat.even (Lcg.bits e)); split;
    eauto using leb_refl_left, leb_refl_right.
Qed.

Lemma Lcg_discrete_contract : discrete_contract Lcg.lib.
Proof.
  intros w e. cbn [discrete_distribution Lcg.lib fst].
  apply Nat.mod_upper_bound. lia.
Qed.

(** The contract of the uniform distribution covers the single point. *)
Lemma uniform_real_contract_degenerate (R : RandomLib) :
  uniform_real_contract R -> uniform_degenerate_contract R.
Proof.
  intros Hc a b e Heq Hfin.
  destruct (Hc a b e (degenerate_axis_ok a b Heq Hfin)) as [Hlo Hhi].
  apply squeezed with a b; trivial.
  - now apply eqb_refl_finite.
  - now apply eqb_sym.
Qed.

(** ** The formulas of libstdc++ and libc++ keep the degenerate contracts *)

Section AffineLibrary.

Variable E : Type.
Variable e0 : E.
Variable seed : list Z -> E.
Variable index : list double -> E -> nat * E.
Variables canonical deviate : E -> double * E.

Hypothesis canonical_finite : forall e, isfinite (fst (canonical e)) = true.
Hypothesis deviate_finite : forall e, isfinite (fst (deviate e)) = true.

Lemma affine_uniform_degenerate :
  uniform_degenerate_contract (affine_lib E e0 seed index canonical deviate).
Proof.
  intros a b e Heq Hfin. cbn [uniform_real_distribution affine_lib].
  pose proof (canonical_finite e) as Hu.
  destruct (canonical e) as [u e']. cbn [fst] in *.
  apply affine_at_zero_scale; trivial.
  now apply sub_equal_is_zero.
Qed.

Lemma affine_normal_degenerate :
  normal_degenerate_contract (affine_lib E e0 seed index canonical deviate).
Proof.
  intros m sd e Hsd Hfin. cbn [normal_distribution affine_lib].
  pose proof (deviate_finite e) as Hz.
  destruct (deviate e) as [z e']. cbn [fst] in *.
  now apply affine_at_zero_scale.
Qed.

End AffineLibrary.

Lemma Lcg_affine_uniform_degenerate : uniform_degenerate_contract Lcg.affine.
Proof.
  apply affine_uniform_degenerate.
  intros e. unfold Lcg.canonical. cbn [fst].
  destruct (Lcg.bits e) as [|[|[|n]]]; reflexivity.
Qed.

Lemma Lcg_affine_normal_degenerate : normal_degenerate_contract Lcg.affine.
Proof.
  apply affine_normal_degenerate.
  intros e. unfold Lcg.deviate. cbn [fst].
  destruct (Lcg.bits e) as [|[|[|n]]]; reflexivity.
Qed.

(** ** reconfigure *)

Lemma collect_tpc_masses_app (done rest : list geo.TPCGeo) (acc : list double) :
  collect_tpc_masses (done ++ rest) (List.length rest) (List.length done) acc
  = Returned (acc ++ active_masses rest)%list.
Proof.
  revert done acc.
  induction rest as [|tpc rest IH]; intros done acc; simpl.
  - now rewrite app_nil_r.
  - unfold geo.TPC. rewrite nth_error_app2 by lia.
    rewrite Nat.sub_diag. simpl.
    replace (done ++ tpc :: rest)%list with ((done ++ [tpc]) ++ rest)%list
      by now rewrite <- app_assoc.
    replace (S (List.length done)) with (List.length (done ++ [tpc])%list)
      by (rewrite length_app; simpl; lia).
    rewrite IH. now rewrite <- app_assoc.
Qed.

(** The loop of reconfigure ends, and with the masses in TPC order. *)
Lemma collect_tpc_masses_all (geom : geo.Geometry) :
  collect_tpc_masses geom (geo.NTPC geom) 0 [] = Returned (active_masses geom).
Proof. exact (collect_tpc_masses_app [] geom []). Qed.

Lemma parse_vertex_type_sampled (type : string) :
  parse_vertex_type type = Some kSampled <-> type = "sampled"%string.
Proof.
  unfold parse_vertex_type. split.
  - destruct (type =? "sampled")%string eqn:E.
    + intros _. now apply String.eqb_eq.
    + destruct (type =? "fixed")%string; discriminate.
  - intros ->. reflexivity.
Qed.

Lemma parse_vertex_type_fixed (type : string) :
  parse_vertex_type type = Some kFixed <-> type = "fixed"%string.
Proof.
  unfold parse_vertex_type. split.
  - destruct (type =? "sampled")%string eqn:E; [discriminate|].
    destruct (type =? "fixed")%string eqn:E'; [|discriminate].
    intros _. now apply String.eqb_eq.
  - intros ->. reflexivity.
Qed.

Section ReconfigureFacts.

Context {R : RandomLib}.

Ltac run_reconfigure :=
  unfold reconfigure, bind, modify, lift, gets, throw, parse_time_type,
    set_fVertexType, set_fTPCDist, set_fTimeType, set_fT0, set_fSigmaT,
    set_fVertexPosition; simpl.

(** reconfigure with type "sampled", step by step. *)
Lemma reconfigure_sampled (conf : Config) (geom : geo.Geometry) (s : Sampler R) :
  type_ conf = "sampled"%string ->
  reconfigure conf geom s =
  match parse_time_type (time_type_ conf) with
  | Some k =>
      (Returned tt,
       mkSampler (fVertexPosition s) kSampled k (fGeneratorName s) (T0_ conf)
         (SigmaT_ conf) (Some (active_masses geom)) (fTPCEngine s))
  | None =>
      (Threw (invalid_time_type (fGeneratorName s) (time_type_ conf)),
       mkSampler (fVertexPosition s) kSampled (fTimeType s) (fGeneratorName s)
         (fT0 s) (fSigmaT s) (Some (active_masses geom)) (fTPCEngine s))
  end.
Proof.
  intros Ht. run_reconfigure. rewrite Ht. simpl.
  rewrite collect_tpc_masses_all.
  destruct (time_type_ conf =? "uniform")%string; [reflexivity|].
  destruct (time_type_ conf =? "gaussian")%string; reflexivity.
Qed.

(** reconfigure with type "fixed": the three coordinates are all read from
    [position.at(0)]. *)
Lemma reconfigure_fixed (conf : Config) (geom : geo.Geometry) (s : Sampler R) :
  type_ conf = "fixed"%string ->
  reconfigure conf geom s =
  let Vx := elem0 (position_ conf) in
  match parse_time_type (time_type_ conf) with
  | Some k =>
      (Returned tt,
       mkSampler (TLorentzVector.mk Vx Vx Vx 0%float) kFixed k
         (fGeneratorName s) (T0_ conf) (SigmaT_ conf) (fTPCDist s)
         (fTPCEngine s))
  | None =>
      (Threw (invalid_time_type (fGeneratorName s) (time_type_ conf)),
       mkSampler (TLorentzVector.mk Vx Vx Vx 0%float) kFixed (fTimeType s)
         (fGeneratorName s) (fT0 s) (fSigmaT s) (fTPCDist s) (fTPCEngine s))
  end.
Proof.
  intros Ht. run_reconfigure. rewrite Ht. simpl.
  destruct (time_type_ conf =? "uniform")%string; [reflexivity|].
  destruct (time_type_ conf =? "gaussian")%string; reflexivity.
Qed.

(** reconfigure with any other type throws before it has assigned anything. *)
Lemma reconfigure_invalid_type (conf : Config) (geom : geo.Geometry)
    (s : Sampler R) :
  parse_vertex_type (type_ conf) = None ->
  reconfigure conf geom s =
  (Threw (invalid_vertex_type (fGeneratorName s) (type_ conf)), s).
Proof.
  unfold parse_vertex_type. intros Hp. run_reconfigure.
  destruct (type_ conf =? "sampled")%string; [discriminate|].
  destruct (type_ conf =? "fixed")%string; [discriminate|].
  reflexivity.
Qed.

(** When reconfigure returns, the time law is the configured one, whatever
    the member held before. *)
Lemma reconfigure_returns (conf : Config) (geom : geo.Geometry)
    (s s' : Sampler R) (u : unit) :
  reconfigure conf geom s = (Returned u, s') ->
  exists kv kt,
    parse_vertex_type (type_ conf) = Some kv
    /\ parse_time_type (time_type_ conf) = Some kt
    /\ fVertexType s' = kv /\ fTimeType s' = kt
    /\ fT0 s' = T0_ conf /\ fSigmaT s' = SigmaT_ conf
    /\ fTPCEngine s' = fTPCEngine s /\ fGeneratorName s' = fGeneratorName s
    /\ fTPCDist s' =
       match kv with
       | kSampled => Some (active_masses geom)
       | kFixed => fTPCDist s
       end
    /\ fVertexPosition s' =
       match kv with
       | kSampled => fVertexPosition s
       | kFixed =>
           let Vx := elem0 (position_ conf) in
           TLorentzVector.mk Vx Vx Vx 0%float
       end.
Proof.
  intros Hr.
  destruct (parse_vertex_type (type_ conf)) as [[|]|] eqn:Hp.
  - pose proof Hp as Hp'. apply parse_vertex_type_sampled in Hp'.
    rewrite (reconfigure_sampled _ _ _ Hp') in Hr.
    destruct (parse_time_type (time_type_ conf)) as [k|]; [|discriminate].
    inversion Hr; subst. exists kSampled, k. repeat split; reflexivity.
  - pose proof Hp as Hp'. apply parse_vertex_type_fixed in Hp'.
    rewrite (reconfigure_fixed _ _ _ Hp') in Hr. cbv zeta in Hr.
    destruct (parse_time_type (time_type_ conf)) as [k|]; [|discriminate].
    inversion Hr; subst. exists kFixed, k. repeat split; reflexivity.
  - rewrite (reconfigure_invalid_type _ _ _ Hp) in Hr. discriminate.
Qed.

End ReconfigureFacts.

(** ** The constructor *)

Section ConstructorFacts.

Context {R : RandomLib}.

(** Whatever the seed service makes the seeder do, the seeding that ends the
    constructor overwrites it. *)
Lemma seeding_overwrites_seeder_calls (calls : list Z) (e : engine)
    (s : Sampler R) :
  set_fTPCEngine e
    (List.fold_left (fun s lar_seed => seeder lar_seed s) calls s)
  = set_fTPCEngine e s.
Proof.
  revert s. induction calls as [|lar_seed calls IH]; intros s; simpl.
  - reflexivity.
  - rewrite IH. reflexivity.
Qed.

(** The object a construction leaves, or the exception that ends it. *)
Lemma constructor_result (conf : Config) (rand_service : NuRandomService)
    (geom : geo.Geometry) (generator_name : string)
    (indeterminate : time_type_t) :
  ActiveVolumeVertexSampler conf rand_service geom generator_name indeterminate
  = match parse_vertex_type (type_ conf), parse_time_type (time_type_ conf) with
    | Some kv, Some kt =>
        Returned
          (mkSampler
             match kv with
             | kSampled => TLorentzVector.zero
             | kFixed =>
                 let Vx := elem0 (position_ conf) in
                 TLorentzVector.mk Vx Vx Vx 0%float
             end
             kv kt generator_name (T0_ conf) (SigmaT_ conf)
             match kv with
             | kSampled => Some (active_masses geom)
             | kFixed => None
             end
             (engine_seed
                (seed_seq
                   [static_cast_uint_fast64 (registered_seed rand_service)])))
    | Some _, None =>
        Threw (invalid_time_type generator_name (time_type_ conf))
    | None, _ => Threw (invalid_vertex_type generator_name (type_ conf))
    end.
Proof.
  unfold ActiveVolumeVertexSampler.
  destruct (parse_vertex_type (type_ conf)) as [[|]|] eqn:Hp.
  - apply parse_vertex_type_sampled in Hp.
    rewrite (reconfigure_sampled _ _ _ Hp).
    destruct (parse_time_type (time_type_ conf)); [|reflexivity].
    unfold registerEngine. rewrite seeding_overwrites_seeder_calls. reflexivity.
  - apply parse_vertex_type_fixed in Hp.
    rewrite (reconfigure_fixed _ _ _ Hp). cbv zeta.
    destruct (parse_time_type (time_type_ conf)); [|reflexivity].
    unfold registerEngine. rewrite seeding_overwrites_seeder_calls. reflexivity.
  - rewrite (reconfigure_invalid_type _ _ _ Hp).
    destruct (parse_time_type (time_type_ conf)); reflexivity.
Qed.

End ConstructorFacts.

(** ** sample_vertex_pos, call by call *)

Section SamplingFacts.

Context {R : RandomLib}.

Ltac run_sample :=
  unfold sample_vertex_pos, bind, gets, ret, modify, lift, on_engine,
    deref_fTPCDist, set_fVertexPosition, set_fTPCEngine; simpl.

(** A call in fixed mode: one time draw, written to the T component. *)
Lemma sample_vertex_pos_fixed (geom : geo.Geometry) (s : Sampler R) :
  fVertexType s = kFixed ->
  sample_vertex_pos geom s =
  let te :=
    time_distribution (fTimeType s) (fT0 s) (fSigmaT s) (fTPCEngine s) in
  let v := TLorentzVector.SetT (fst te) (fVertexPosition s) in
  (Returned v,
   mkSampler v kFixed (fTimeType s) (fGeneratorName s) (fT0 s) (fSigmaT s)
     (fTPCDist s) (snd te)).
Proof.
  intros Hk. run_sample. rewrite Hk. simpl.
  destruct (time_distribution _ _ _ _) as [t e]. simpl.
  rewrite Hk. reflexivity.
Qed.

(** A call in sampled mode: the index, the look-up of the TPC, the three
    coordinates, the time; each draw on the engine the one before left. *)
Lemma sample_vertex_pos_sampled (geom : geo.Geometry) (s : Sampler R) :
  fVertexType s = kSampled ->
  sample_vertex_pos geom s =
  match fTPCDist s with
  | None => (Undefined, s)
  | Some w =>
      let ie := discrete_distribution w (fTPCEngine s) in
      match geo.TPC geom (fst ie) with
      | Returned tpc =>
          let xe :=
            uniform_real_distribution (geo.MinX tpc) (geo.MaxX tpc) (snd ie) in
          let ye :=
            uniform_real_distribution (geo.MinY tpc) (geo.MaxY tpc) (snd xe) in
          let ze :=
            uniform_real_distribution (geo.MinZ tpc) (geo.MaxZ tpc) (snd ye) in
          let te :=
            time_distribution (fTimeType s) (fT0 s) (fSigmaT s) (snd ze) in
          let v := TLorentzVector.mk (fst xe) (fst ye) (fst ze) (fst te) in
          (Returned v,
           mkSampler v kSampled (fTimeType s) (fGeneratorName s) (fT0 s)
             (fSigmaT s) (fTPCDist s) (snd te))
      | Threw e =>
          (Threw e,
           mkSampler (fVertexPosition s) kSampled (fTimeType s)
             (fGeneratorName s) (fT0 s) (fSigmaT s) (fTPCDist s) (snd ie))
      | Undefined =>
          (Undefined,
           mkSampler (fVertexPosition s) kSampled (fTimeType s)
             (fGeneratorName s) (fT0 s) (fSigmaT s) (fTPCDist s) (snd ie))
      end
  end.
Proof.
  intros Hk. run_sample. rewrite Hk. simpl.
  destruct (fTPCDist s) as [w|] eqn:Hd; [|reflexivity].
  destruct (discrete_distribution w (fTPCEngine s)) as [i e1]. simpl.
  rewrite Hk.
  destruct (geo.TPC geom i) as [tpc|ex|]; try (rewrite Hd; reflexivity).
  destruct (uniform_real_distribution (geo.MinX tpc) _ e1) as [x e2]. simpl.
  destruct (uniform_real_distribution (geo.MinY tpc) _ e2) as [y e3]. simpl.
  destruct (uniform_real_distribution (geo.MinZ tpc) _ e3) as [z e4]. simpl.
  destruct (time_distribution _ _ _ e4) as [t e5]. simpl.
  rewrite Hd. reflexivity.
Qed.

(** No call writes the configuration, however it ends. *)
Lemma sample_vertex_pos_keeps_configuration (geom : geo.Geometry)
    (s : Sampler R) :
  configuration_eq s (snd (sample_vertex_pos geom s)).
Proof.
  unfold configuration_eq.
  destruct (fVertexType s) eqn:Hk.
  - rewrite (sample_vertex_pos_sampled _ _ Hk).
    destruct (fTPCDist s) as [w|] eqn:Hd.
    + cbv zeta. destruct (geo.TPC geom _); simpl; rewrite ?Hd; auto 10.
    + simpl. rewrite Hk, Hd. auto 10.
  - rewrite (sample_vertex_pos_fixed _ _ Hk). simpl. auto 10.
Qed.

End SamplingFacts.

(** The sampler of the scenario is the one its constructor leaves. *)
Lemma scenario_configured_is_constructed :
  ActiveVolumeVertexSampler Scenario.sampled_uniform Scenario.seed42
    Scenario.two_cells Scenario.name kGaussian
  = Returned Scenario.configured.
Proof. vm_compute. reflexivity. Qed.

(** ** Configuration: what is rejected, and what a rejection leaves *)

Section ConfigurationClaims.

Context {R : RandomLib}.

(** C2, as the code has it: a call of reconfigure with a [time_type] that is
    neither "uniform" nor "gaussian" throws; it leaves the time law, T0 and
    SigmaT (and the engine and the name) as they were; when [type] is
    recognised, the vertex mode, the cached position and the TPC distribution
    have by then been overwritten with those of the new configuration; when
    [type] is not recognised either, nothing has been written. *)
Theorem reconfigure_invalid_time_type (conf : Config) (geom : geo.Geometry)
    (s : Sampler R) :
  parse_time_type (time_type_ conf) = None ->
  threw (fst (reconfigure conf geom s)) = true
  /\ time_state_eq s (snd (reconfigure conf geom s))
  /\ fTPCEngine (snd (reconfigure conf geom s)) = fTPCEngine s
  /\ fGeneratorName (snd (reconfigure conf geom s)) = fGeneratorName s
  /\ match parse_vertex_type (type_ conf) with
     | Some _ =>
         vertex_state_eq
           (snd (reconfigure (with_time_type "uniform" conf) geom s))
           (snd (reconfigure conf geom s))
     | None => snd (reconfigure conf geom s) = s
     end.
Proof.
  intros Hbad. unfold time_state_eq, vertex_state_eq.
  destruct (parse_vertex_type (type_ conf)) as [[|]|] eqn:Hp.
  - apply parse_vertex_type_sampled in Hp.
    rewrite (reconfigure_sampled conf geom s Hp), Hbad.
    rewrite (reconfigure_sampled (with_time_type "uniform" conf) geom s Hp).
    simpl. auto 10.
  - apply parse_vertex_type_fixed in Hp.
    rewrite (reconfigure_fixed conf geom s Hp), Hbad.
    rewrite (reconfigure_fixed (with_time_type "uniform" conf) geom s Hp).
    simpl. auto 10.
  - rewrite (reconfigure_invalid_type conf geom s Hp). simpl. auto 10.
Qed.

(** C3, as the code has it: reconfigure in sampled mode never looks at the
    masses; with a recognised [time_type] it returns for every geometry, also
    one without any mass, and keeps the masses as the weights of the TPC
    distribution. *)
Theorem reconfigure_sampled_accepts_any_masses (conf : Config)
    (geom : geo.Geometry) (s : Sampler R) :
  type_ conf = "sampled"%string ->
  parse_time_type (time_type_ conf) <> None ->
  fst (reconfigure conf geom s) = Returned tt
  /\ fVertexType (snd (reconfigure conf geom s)) = kSampled
  /\ fTPCDist (snd (reconfigure conf geom s)) = Some (active_masses geom).
Proof.
  intros Ht Hk. rewrite (reconfigure_sampled conf geom s Ht).
  destruct (parse_time_type (time_type_ conf)); [|contradiction].
  simpl. auto.
Qed.

(** C4, as the code has it: reconfigure never looks at the sign of SigmaT; with
    a recognised [type] and [time_type] it returns for every T0 and SigmaT and
    stores them as given. *)
Theorem reconfigure_accepts_any_spread (conf : Config) (geom : geo.Geometry)
    (s : Sampler R) :
  parse_vertex_type (type_ conf) <> None ->
  parse_time_type (time_type_ conf) <> None ->
  fst (reconfigure conf geom s) = Returned tt
  /\ fT0 (snd (reconfigure conf geom s)) = T0_ conf
  /\ fSigmaT (snd (reconfigure conf geom s)) = SigmaT_ conf.
Proof.
  intros Hv Hk.
  destruct (parse_vertex_type (type_ conf)) as [[|]|] eqn:Hp; [| |contradiction].
  - apply parse_vertex_type_sampled in Hp.
    rewrite (reconfigure_sampled conf geom s Hp).
    destruct (parse_time_type (time_type_ conf)); [|contradiction].
    simpl. auto.
  - apply parse_vertex_type_fixed in Hp.
    rewrite (reconfigure_fixed conf geom s Hp). cbv zeta.
    destruct (parse_time_type (time_type_ conf)); [|contradiction].
    simpl. auto.
Qed.

End ConfigurationClaims.

(** C2 at a concrete input: the sampler of the scenario, reconfigured with
    type "fixed" and time_type "exponential". *)
Lemma reconfigure_invalid_time_type_witness :
  parse_time_type (time_type_ Scenario.fixed_exponential) = None
  /\ threw (fst (reconfigure Scenario.fixed_exponential Scenario.two_cells
                   Scenario.configured)) = true
  /\ time_state_eq Scenario.configured
       (snd (reconfigure Scenario.fixed_exponential Scenario.two_cells
               Scenario.configured)).
Proof.
  split; [reflexivity|].
  pose proof (reconfigure_invalid_time_type Scenario.fixed_exponential
                Scenario.two_cells Scenario.configured eq_refl) as H.
  split; [exact (proj1 H) | exact (proj1 (proj2 H))].
Defined.

(** C2 as the specification states it fails: the rejected reconfiguration has
    thrown, and the vertex mode is no longer the one configured before. *)
Lemma reconfigure_rejection_is_not_atomic :
  threw (fst (reconfigure Scenario.fixed_exponential Scenario.two_cells
                Scenario.configured)) = true
  /\ ~ (vertex_state_eq Scenario.configured
          (snd (reconfigure Scenario.fixed_exponential Scenario.two_cells
                  Scenario.configured))
        /\ time_state_eq Scenario.configured
             (snd (reconfigure Scenario.fixed_exponential Scenario.two_cells
                     Scenario.configured))).
Proof.
  split; [reflexivity|].
  intros [[Hk _] _]. vm_compute in Hk. discriminate Hk.
Qed.

(** C3 at a concrete input: one cell without mass. *)
Lemma reconfigure_sampled_accepts_any_masses_witness :
  massless Scenario.flat_geometry = true
  /\ fst (reconfigure Scenario.sampled_uniform Scenario.flat_geometry
            Scenario.configured) = Returned tt
  /\ fTPCDist (snd (reconfigure Scenario.sampled_uniform Scenario.flat_geometry
                      Scenario.configured)) = Some [0%float].
Proof.
  split; [reflexivity|].
  pose proof (reconfigure_sampled_accepts_any_masses Scenario.sampled_uniform
                Scenario.flat_geometry Scenario.configured eq_refl) as H.
  assert (Hk : parse_time_type (time_type_ Scenario.sampled_uniform) <> None)
    by (vm_compute; discriminate).
  split; [exact (proj1 (H Hk)) | exact (proj2 (proj2 (H Hk)))].
Defined.

(** C3 as the specification states it fails: over a geometry without any
    mass, construction in sampled mode and a later reconfigure both return. *)
Lemma massless_geometry_is_accepted :
  massless Scenario.flat_geometry = true
  /\ returned (ActiveVolumeVertexSampler (R:=Lcg.lib) Scenario.sampled_uniform
                 Scenario.seed42 Scenario.flat_geometry Scenario.name kUniform)
     = true
  /\ threw (fst (reconfigure Scenario.sampled_uniform Scenario.flat_geometry
                   Scenario.configured)) = false.
Proof. repeat split; vm_compute; reflexivity. Qed.

(** C4 at a concrete input: SigmaT = -1. *)
Lemma reconfigure_accepts_any_spread_witness :
  fst (reconfigure Scenario.negative_spread Scenario.two_cells
         Scenario.configured) = Returned tt
  /\ fSigmaT (snd (reconfigure Scenario.negative_spread Scenario.two_cells
                     Scenario.configured)) = (-1)%float.
Proof.
  assert (Hv : parse_vertex_type (type_ Scenario.negative_spread) <> None)
    by (vm_compute; discriminate).
  assert (Hk : parse_time_type (time_type_ Scenario.negative_spread) <> None)
    by (vm_compute; discriminate).
  pose proof (reconfigure_accepts_any_spread Scenario.negative_spread
                Scenario.two_cells Scenario.configured Hv Hk) as H.
  split; [exact (proj1 H) | exact (proj2 (proj2 H))].
Defined.

(** C4 as the specification states it fails: a negative SigmaT is accepted,
    by the constructor and by reconfigure. *)
Lemma negative_spread_is_accepted :
  (SigmaT_ Scenario.negative_spread <? 0)%float = true
  /\ returned (ActiveVolumeVertexSampler (R:=Lcg.lib) Scenario.negative_spread
                 Scenario.seed42 Scenario.two_cells Scenario.name kUniform)
     = true
  /\ threw (fst (reconfigure Scenario.negative_spread Scenario.two_cells
                   Scenario.configured)) = false.
Proof. repeat split; vm_compute; reflexivity. Qed.

(** ** The record of draws *)

Section TraceFacts.

Context {R : RandomLib}.

Lemma traced_discrete (w : list double) (e : @engine (Traced R)) :
  @discrete_distribution (Traced R) w e =
  let ie := @discrete_distribution R w (fst e) in
  (fst ie, (snd ie, snd e ++ [DiscreteDraw w (fst ie)])).
Proof.
  simpl. destruct (@discrete_distribution R w (fst e)). reflexivity.
Qed.

Lemma traced_uniform_real (a b : double) (e : @engine (Traced R)) :
  @uniform_real_distribution (Traced R) a b e =
  let xe := @uniform_real_distribution R a b (fst e) in
  (fst xe, (snd xe, snd e ++ [UniformDraw a b (fst xe)])).
Proof.
  simpl. destruct (@uniform_real_distribution R a b (fst e)). reflexivity.
Qed.

Lemma traced_time (k : time_type_t) (t0 sigma : double)
    (e : @engine (Traced R)) :
  @time_distribution (Traced R) k t0 sigma e =
  let te := @time_distribution R k t0 sigma (fst e) in
  (fst te, (snd te, snd e ++ [time_draw k t0 sigma (fst te)])).
Proof.
  destruct k; simpl.
  - destruct (@uniform_real_distribution R _ _ (fst e)). reflexivity.
  - destruct (@normal_distribution R _ _ (fst e)). reflexivity.
Qed.

(** Recording the draws changes nothing else: a call on the recording engine
    ends as the call on the plain engine does, in the same state. *)
Lemma untraced_sample_vertex_pos (geom : geo.Geometry)
    (s : Sampler (Traced R)) :
  sample_vertex_pos geom (untraced s) =
  (fst (sample_vertex_pos geom s), untraced (snd (sample_vertex_pos geom s))).
Proof.
  destruct (fVertexType s) eqn:Hk.
  - assert (Hk' : fVertexType (untraced s) = kSampled) by exact Hk.
    rewrite (sample_vertex_pos_sampled geom s Hk).
    rewrite (sample_vertex_pos_sampled geom (untraced s) Hk').
    change (fTPCDist (untraced s)) with (fTPCDist s).
    destruct (fTPCDist s) as [w|] eqn:Hd.
    + cbv zeta. rewrite traced_discrete. cbv zeta.
      cbn [fst snd untraced fTPCEngine].
      destruct (geo.TPC geom _) as [tpc|ex|]; try reflexivity.
      repeat (rewrite traced_uniform_real; cbv zeta; cbn [fst snd]).
      rewrite traced_time. cbv zeta. cbn [fst snd].
      reflexivity.
    + unfold untraced. simpl. rewrite Hd. reflexivity.
  - assert (Hk' : fVertexType (untraced s) = kFixed) by exact Hk.
    rewrite (sample_vertex_pos_fixed geom s Hk).
    rewrite (sample_vertex_pos_fixed geom (untraced s) Hk').
    cbv zeta. rewrite traced_time. reflexivity.
Qed.

(** A call that does not return has made no draw, or the draw of the index
    alone. *)
Lemma draws_of_a_failed_call (geom : geo.Geometry) (s : Sampler (Traced R)) :
  returned (fst (sample_vertex_pos geom s)) = false ->
  fVertexType s = kSampled
  /\ (draws (snd (sample_vertex_pos geom s)) = draws s
      \/ exists w i,
           fTPCDist s = Some w
           /\ draws (snd (sample_vertex_pos geom s))
              = draws s ++ [DiscreteDraw w i]).
Proof.
  destruct (fVertexType s) eqn:Hk.
  - rewrite (sample_vertex_pos_sampled geom s Hk).
    destruct (fTPCDist s) as [w|] eqn:Hd.
    + cbv zeta. rewrite traced_discrete. cbv zeta. cbn [fst snd].
      destruct (geo.TPC geom _) as [tpc|ex|]; simpl; try discriminate;
        intros _; split; trivial; right;
        exists w, (fst (@discrete_distribution R w (fst (fTPCEngine s))));
        split; reflexivity.
    + intros _. split; trivial. left. reflexivity.
  - rewrite (sample_vertex_pos_fixed geom s Hk). simpl. discriminate.
Qed.

(** C6: a call of sample_vertex_pos that returns has drawn from the engine, in
    sampled mode, the index of the TPC, then x, then y, then z within the box
    of that TPC, then the time, each once and in this order, and the vertex
    returned holds the values of these draws; in fixed mode it has made the
    one time draw and no other. *)
Theorem draws_of_a_call (geom : geo.Geometry) (s s' : Sampler (Traced R))
    (v : TLorentzVector.t) :
  sample_vertex_pos geom s = (Returned v, s') ->
  match fVertexType s with
  | kSampled =>
      exists w i tpc,
        fTPCDist s = Some w
        /\ geo.TPC geom i = Returned tpc
        /\ draws s' =
           draws s ++
           [DiscreteDraw w i;
            UniformDraw (geo.MinX tpc) (geo.MaxX tpc) (TLorentzVector.fX v);
            UniformDraw (geo.MinY tpc) (geo.MaxY tpc) (TLorentzVector.fY v);
            UniformDraw (geo.MinZ tpc) (geo.MaxZ tpc) (TLorentzVector.fZ v);
            time_draw (fTimeType s) (fT0 s) (fSigmaT s) (TLorentzVector.fE v)]
  | kFixed =>
      draws s' =
      draws s ++
      [time_draw (fTimeType s) (fT0 s) (fSigmaT s) (TLorentzVector.fE v)]
  end.
Proof.
  intros Hcall. unfold draws.
  destruct (fVertexType s) eqn:Hk.
  - rewrite (sample_vertex_pos_sampled geom s Hk) in Hcall.
    destruct (fTPCDist s) as [w|] eqn:Hd; [|discriminate].
    cbv zeta in Hcall. rewrite traced_discrete in Hcall.
    cbv zeta in Hcall. cbn [fst snd] in Hcall.
    destruct (geo.TPC geom _) as [tpc|ex|] eqn:Htpc; try discriminate.
    repeat (rewrite traced_uniform_real in Hcall; cbv zeta in Hcall;
            cbn [fst snd] in Hcall).
    rewrite traced_time in Hcall. cbv zeta in Hcall. cbn [fst snd] in Hcall.
    inversion Hcall; subst; clear Hcall.
    exists w, (fst (@discrete_distribution R w (fst (fTPCEngine s)))), tpc.
    split; [reflexivity|]. split; [exact Htpc|].
    cbn [fTPCEngine snd TLorentzVector.fX TLorentzVector.fY TLorentzVector.fZ
         TLorentzVector.fE].
    rewrite <- !app_assoc. reflexivity.
  - rewrite (sample_vertex_pos_fixed geom s Hk) in Hcall.
    cbv zeta in Hcall. rewrite traced_time in Hcall.
    cbv zeta in Hcall. cbn [fst snd] in Hcall.
    inversion Hcall; subst; clear Hcall. reflexivity.
Qed.

End TraceFacts.

(** C6 at a concrete input: the first call on the sampler of the scenario
    returns (110, 10, 10, 4). *)
Lemma draws_of_a_call_witness :
  exists w i tpc,
    fTPCDist Scenario.configured_traced = Some w
    /\ geo.TPC Scenario.two_cells i = Returned tpc
    /\ draws (snd (sample_vertex_pos Scenario.two_cells
                     Scenario.configured_traced)) =
       draws Scenario.configured_traced ++
       [DiscreteDraw w i;
        UniformDraw (geo.MinX tpc) (geo.MaxX tpc) 110;
        UniformDraw (geo.MinY tpc) (geo.MaxY tpc) 10;
        UniformDraw (geo.MinZ tpc) (geo.MaxZ tpc) 10;
        time_draw kUniform 5 1 4].
Proof.
  assert (Hcall :
    sample_vertex_pos Scenario.two_cells Scenario.configured_traced
    = (Returned (TLorentzVector.mk 110 10 10 4),
       snd (sample_vertex_pos Scenario.two_cells Scenario.configured_traced)))
    by (vm_compute; reflexivity).
  exact (draws_of_a_call Scenario.two_cells Scenario.configured_traced _
           (TLorentzVector.mk 110 10 10 4) Hcall).
Defined.

(** ** Sampled mode: the position lies in the box of the selected TPC *)

Section PositionClaims.

Context {R : RandomLib}.
Hypothesis uniform_ok : uniform_real_contract R.

(** A coordinate drawn over an axis: within its bounds, and the common bound
    itself when the two are equal. *)
Lemma coordinate_within_axis (lo hi : double) (e : engine) :
  (axis_ok lo hi = true ->
   within lo hi (fst (uniform_real_distribution lo hi e)))
  /\ ((lo =? hi) = true -> isfinite lo = true ->
      (fst (uniform_real_distribution lo hi e) =? lo) = true).
Proof.
  split.
  - apply uniform_ok.
  - now apply uniform_real_contract_degenerate.
Qed.

(** C7: in sampled mode, when the call returns vertex [v] and [tpc] is the
    TPC that the drawn index selects, each coordinate of [v] lies between the
    bounds of [tpc] on its axis (for an axis with min <= max and a finite
    extent), and equals the common bound on an axis where min == max. *)
Theorem sampled_position_within_cell (geom : geo.Geometry) (s s' : Sampler R)
    (v : TLorentzVector.t) (w : list double) (tpc : geo.TPCGeo) :
  fVertexType s = kSampled ->
  fTPCDist s = Some w ->
  geo.TPC geom (fst (discrete_distribution w (fTPCEngine s))) = Returned tpc ->
  sample_vertex_pos geom s = (Returned v, s') ->
  ((axis_ok (geo.MinX tpc) (geo.MaxX tpc) = true ->
    within (geo.MinX tpc) (geo.MaxX tpc) (TLorentzVector.fX v))
   /\ (axis_ok (geo.MinY tpc) (geo.MaxY tpc) = true ->
       within (geo.MinY tpc) (geo.MaxY tpc) (TLorentzVector.fY v))
   /\ (axis_ok (geo.MinZ tpc) (geo.MaxZ tpc) = true ->
       within (geo.MinZ tpc) (geo.MaxZ tpc) (TLorentzVector.fZ v)))
  /\ ((geo.MinX tpc =? geo.MaxX tpc) = true -> isfinite (geo.MinX tpc) = true ->
      (TLorentzVector.fX v =? geo.MinX tpc) = true)
  /\ ((geo.MinY tpc =? geo.MaxY tpc) = true -> isfinite (geo.MinY tpc) = true ->
      (TLorentzVector.fY v =? geo.MinY tpc) = true)
  /\ ((geo.MinZ tpc =? geo.MaxZ tpc) = true -> isfinite (geo.MinZ tpc) = true ->
      (TLorentzVector.fZ v =? geo.MinZ tpc) = true).
Proof.
  intros Hk Hd Htpc Hcall.
  rewrite (sample_vertex_pos_sampled geom s Hk), Hd in Hcall.
  cbv zeta in Hcall. rewrite Htpc in Hcall.
  inversion Hcall; subst; clear Hcall.
  cbn [TLorentzVector.fX TLorentzVector.fY TLorentzVector.fZ].
  repeat split; intros; now apply coordinate_within_axis.
Qed.

End PositionClaims.

(** C7 at a concrete input: over the flat cell (x from 5 to 5, y and z from 0
    to 10) the first call returns x = 5, y = 10, z = 10. *)
Lemma sampled_position_within_cell_witness :
  (TLorentzVector.fX (TLorentzVector.mk 5 10 10 4) =? geo.MinX Scenario.flat_cell)
  = true
  /\ within (geo.MinY Scenario.flat_cell) (geo.MaxY Scenario.flat_cell)
       (TLorentzVector.fY (TLorentzVector.mk 5 10 10 4))
  /\ within (geo.MinZ Scenario.flat_cell) (geo.MaxZ Scenario.flat_cell)
       (TLorentzVector.fZ (TLorentzVector.mk 5 10 10 4)).
Proof.
  assert (Hcall :
    sample_vertex_pos Scenario.flat_geometry Scenario.configured_flat
    = (Returned (TLorentzVector.mk 5 10 10 4),
       snd (sample_vertex_pos Scenario.flat_geometry Scenario.configured_flat)))
    by (vm_compute; reflexivity).
  pose proof (sampled_position_within_cell Lcg_uniform_real_contract
                Scenario.flat_geometry Scenario.configured_flat _
                (TLorentzVector.mk 5 10 10 4) [0] Scenario.flat_cell
                eq_refl eq_refl eq_refl Hcall) as H.
  destruct H as [(_ & Hy & Hz) (Hx & _)].
  split; [apply Hx; reflexivity|].
  split; [apply Hy | apply Hz]; reflexivity.
Defined.

(** ** The time of a vertex *)

Section TimeClaims.

Context {R : RandomLib}.
Hypothesis uniform_ok : uniform_degenerate_contract R.
Hypothesis normal_ok : normal_degenerate_contract R.

(** With a zero spread either law gives the centre. *)
Lemma time_of_zero_spread (k : time_type_t) (t0 sigma : double) (e : engine) :
  (sigma =? 0) = true -> isfinite t0 = true ->
  (fst (time_distribution k t0 sigma e) =? t0) = true.
Proof.
  intros Hs Hf. destruct k; simpl.
  - pose proof (sub_zero t0 sigma Hs Hf) as Hlo.
    pose proof (add_zero t0 sigma Hs Hf) as Hhi.
    assert (Heq : ((t0 - sigma) =? (t0 + sigma)) = true).
    { apply leb_antisym.
      - apply leb_trans with t0; [now apply eqb_leb | now apply eqb_leb, eqb_sym].
      - apply leb_trans with t0; [now apply eqb_leb | now apply eqb_leb, eqb_sym]. }
    apply leb_antisym.
    + apply leb_trans with (t0 - sigma); [|now apply eqb_leb].
      apply eqb_leb, uniform_ok; [exact Heq | exact (eqb_isfinite _ _ Hlo Hf)].
    + apply leb_trans with (t0 - sigma); [now apply eqb_leb, eqb_sym|].
      apply eqb_leb, eqb_sym, uniform_ok;
        [exact Heq | exact (eqb_isfinite _ _ Hlo Hf)].
  - now apply normal_ok.
Qed.

(** The time of a returned vertex is the value of a time draw. *)
Lemma returned_time_is_drawn (geom : geo.Geometry) (s s' : Sampler R)
    (v : TLorentzVector.t) :
  sample_vertex_pos geom s = (Returned v, s') ->
  exists e,
    TLorentzVector.fE v
    = fst (time_distribution (fTimeType s) (fT0 s) (fSigmaT s) e).
Proof.
  intros Hcall. destruct (fVertexType s) eqn:Hk.
  - rewrite (sample_vertex_pos_sampled geom s Hk) in Hcall.
    destruct (fTPCDist s) as [w|]; [|discriminate].
    cbv zeta in Hcall.
    destruct (geo.TPC geom _) as [tpc|ex|]; try discriminate.
    inversion Hcall; subst; clear Hcall. simpl. eauto.
  - rewrite (sample_vertex_pos_fixed geom s Hk) in Hcall.
    inversion Hcall; subst; clear Hcall. simpl. eauto.
Qed.

Lemma sample_n_zero_spread (n : nat) (geom : geo.Geometry) (s : Sampler R) :
  (fSigmaT s =? 0) = true -> isfinite (fT0 s) = true ->
  List.Forall
    (fun o => forall v, o = Returned v ->
                        (TLorentzVector.fE v =? fT0 s) = true)
    (fst (sample_n n geom s)).
Proof.
  revert s. induction n as [|n IH]; intros s Hs Hf; simpl.
  - constructor.
  - pose proof (sample_vertex_pos_keeps_configuration geom s) as Hc.
    destruct (sample_vertex_pos geom s) as [o s1] eqn:Hcall.
    destruct Hc as (_ & _ & _ & Ht0 & Hsig & _). simpl in Ht0, Hsig.
    specialize (IH s1). rewrite <- Ht0, <- Hsig in IH.
    specialize (IH Hs Hf).
    destruct (sample_n n geom s1) as [os s2]. simpl in *.
    constructor; [|exact IH].
    intros v ->. destruct (returned_time_is_drawn geom s s1 v Hcall) as [e ->].
    now apply time_of_zero_spread.
Qed.

(** C8: for a configuration whose SigmaT is zero (and whose T0 is a finite
    number), every vertex returned by a run has its time equal to T0, under
    the uniform law and under the gaussian law alike. *)
Theorem zero_spread_time_is_center (conf : Config)
    (rand_service : NuRandomService) (geom : geo.Geometry)
    (generator_name : string) (indeterminate : time_type_t) (n : nat)
    (outs : list (outcome TLorentzVector.t)) :
  (SigmaT_ conf =? 0) = true ->
  isfinite (T0_ conf) = true ->
  run conf rand_service geom generator_name indeterminate n = Returned outs ->
  List.Forall
    (fun o => forall v, o = Returned v ->
                        (TLorentzVector.fE v =? T0_ conf) = true)
    outs.
Proof.
  intros Hs Hf Hrun. unfold run in Hrun.
  rewrite constructor_result in Hrun.
  destruct (parse_vertex_type (type_ conf)) as [kv|]; [|discriminate].
  destruct (parse_time_type (time_type_ conf)) as [kt|]; [|discriminate].
  inversion Hrun; subst; clear Hrun.
  apply (sample_n_zero_spread n geom
           (mkSampler _ kv kt generator_name (T0_ conf) (SigmaT_ conf) _ _));
    assumption.
Qed.

End TimeClaims.

(** C8 at a concrete input: sampled mode over the two cells, uniform law,
    T0 = 5, SigmaT = 0, three calls, under the formulas of libstdc++. *)
Lemma zero_spread_time_is_center_witness :
  List.Forall
    (fun o => forall v, o = Returned v -> (TLorentzVector.fE v =? 5) = true)
    [Returned (TLorentzVector.mk 107.5 7.5 7.5 5);
     Returned (TLorentzVector.mk 0 0 7.5 5);
     Returned (TLorentzVector.mk 102.5 0 5 5)].
Proof.
  apply (zero_spread_time_is_center Lcg_affine_uniform_degenerate
           Lcg_affine_normal_degenerate Scenario.sampled_zero_spread
           Scenario.seed42 Scenario.two_cells Scenario.name kGaussian 3).
  - reflexivity.
  - reflexivity.
  - vm_compute. reflexivity.
Defined.

(** ** Fixed mode *)

Section FixedModeClaims.

Context {R : RandomLib}.

(** C9: in fixed mode, [n] calls in a row all return; the k-th returns the
    stored position with its time set to the value of the k-th draw; these
    [n] time draws are the only draws made; and the state after them differs
    from the state before in the engine and the time component alone. *)
Theorem fixed_mode_redraws_time_only (geom : geo.Geometry)
    (s : Sampler (Traced R)) (n : nat) :
  fVertexType s = kFixed ->
  exists ts : list double,
    List.length ts = n
    /\ fst (sample_n n geom s) =
       List.map
         (fun t => Returned (TLorentzVector.SetT t (fVertexPosition s))) ts
    /\ draws (snd (sample_n n geom s)) =
       draws s ++ List.map (time_draw (fTimeType s) (fT0 s) (fSigmaT s)) ts
    /\ same_xyz (fVertexPosition (snd (sample_n n geom s))) (fVertexPosition s)
    /\ configuration_eq s (snd (sample_n n geom s)).
Proof.
  revert s. induction n as [|n IH]; intros s Hk.
  - exists []. simpl. rewrite app_nil_r.
    unfold same_xyz, configuration_eq. auto 12.
  - simpl. rewrite (sample_vertex_pos_fixed geom s Hk). cbv zeta.
    rewrite traced_time. cbv zeta. cbn [fst snd].
    set (t := fst (@time_distribution R (fTimeType s) (fT0 s) (fSigmaT s)
                     (fst (fTPCEngine s)))).
    set (s1 := mkSampler _ _ _ _ _ _ _ _).
    destruct (IH s1 eq_refl) as (ts & Hlen & Houts & Hdraws & Hxyz & Hconf).
    destruct (sample_n n geom s1) as [os s2]. simpl in *.
    exists (t :: ts). simpl.
    split; [now rewrite Hlen|].
    split; [now rewrite Houts|].
    split; [rewrite Hdraws; unfold draws; simpl;
            now rewrite <- app_assoc|].
    split; [exact Hxyz|].
    unfold configuration_eq in *. simpl in Hconf.
    rewrite Hk. exact Hconf.
Qed.

End FixedModeClaims.

(** C9 at a concrete input: three calls on a sampler in fixed mode at
    (1, 1, 1), gaussian law, T0 = 5, SigmaT = 1. *)
Lemma fixed_mode_redraws_time_only_witness :
  exists ts : list double,
    List.length ts = 3%nat
    /\ fst (sample_n 3 Scenario.two_cells Scenario.fixed_traced) =
       List.map (fun t => Returned (TLorentzVector.mk 1 1 1 t)) ts
    /\ draws (snd (sample_n 3 Scenario.two_cells Scenario.fixed_traced)) =
       List.map (NormalDraw 5 1) ts.
Proof.
  destruct (fixed_mode_redraws_time_only Scenario.two_cells
              Scenario.fixed_traced 3 eq_refl)
    as (ts & Hlen & Houts & Hdraws & _).
  exists ts. repeat split; assumption.
Defined.

(** ** Runs: a construction, then calls *)

Section RunClaims.

Context {R : RandomLib}.

(** C5: two runs from the same seed, over the same geometry and with the
    same configuration, make the same sequence of vertices: neither what the
    seed service had the seeder do in between, nor what [fTimeType] held
    before the constructor ran, shows in any output. *)
Theorem same_seed_same_sequence (conf : Config) (geom : geo.Geometry)
    (generator_name : string) (seed : Z) (calls calls' : list Z)
    (indeterminate indeterminate' : time_type_t) (n : nat) :
  run conf (mkService seed calls) geom generator_name indeterminate n
  = run conf (mkService seed calls') geom generator_name indeterminate' n.
Proof.
  unfold run. rewrite !constructor_result. reflexivity.
Qed.

(** C10: two configurations of type "fixed" that agree on T0, SigmaT, the
    time law and the first component of the position give the same run,
    whatever the second and third components of their positions are. *)
Theorem fixed_position_ignores_second_and_third (conf conf' : Config)
    (rand_service : NuRandomService) (geom : geo.Geometry)
    (generator_name : string) (indeterminate : time_type_t) (n : nat) :
  type_ conf = "fixed"%string ->
  type_ conf' = "fixed"%string ->
  T0_ conf = T0_ conf' ->
  SigmaT_ conf = SigmaT_ conf' ->
  time_type_ conf = time_type_ conf' ->
  elem0 (position_ conf) = elem0 (position_ conf') ->
  run conf rand_service geom generator_name indeterminate n
  = run conf' rand_service geom generator_name indeterminate n.
Proof.
  intros Ht Ht' HT0 Hsig Htime Hx.
  unfold run. rewrite !constructor_result.
  rewrite Ht, Ht', HT0, Hsig, Htime, Hx. reflexivity.
Qed.

(** C1 on the code: with the position (1, 2, 3) configured, the first vertex
    of a run is at (1, 1, 1). *)
Theorem fixed_123_is_sampled_at_111 (rand_service : NuRandomService)
    (geom : geo.Geometry) (indeterminate : time_type_t) :
  exists t : double,
    run Scenario.fixed_123 rand_service geom Scenario.name indeterminate 1
    = Returned [Returned (TLorentzVector.mk 1 1 1 t)].
Proof.
  unfold run. rewrite constructor_result. simpl.
  rewrite sample_vertex_pos_fixed by reflexivity.
  simpl. eexists. reflexivity.
Qed.

End RunClaims.

(** C10 at a concrete input: the positions (1, 2, 3) and (1, 8, 9). *)
Lemma fixed_position_ignores_second_and_third_witness :
  run (R:=Lcg.lib) Scenario.fixed_123 Scenario.seed42 Scenario.two_cells
    Scenario.name kUniform 4
  = run (R:=Lcg.lib) (with_position (mkArray3 1 8 9) Scenario.fixed_123)
      Scenario.seed42 Scenario.two_cells Scenario.name kUniform 4.
Proof.
  apply (fixed_position_ignores_second_and_third Scenario.fixed_123
           (with_position (mkArray3 1 8 9) Scenario.fixed_123));
    reflexivity.
Defined.

(** ** The null distribution is never dereferenced *)

Section Reachability.

Context {R : RandomLib}.

Lemma constructor_has_distribution (conf : Config)
    (rand_service : NuRandomService) (geom : geo.Geometry)
    (generator_name : string) (indeterminate : time_type_t) (s : Sampler R) :
  ActiveVolumeVertexSampler conf rand_service geom generator_name indeterminate
  = Returned s ->
  has_distribution s.
Proof.
  rewrite constructor_result.
  destruct (parse_vertex_type (type_ conf)) as [[|]|]; [| |discriminate];
    (destruct (parse_time_type (time_type_ conf)); [|discriminate]);
    intros Hs; inversion Hs; subst; unfold has_distribution; simpl;
    intros; discriminate.
Qed.

(** However reconfigure ends, it leaves the invariant in place. *)
Lemma reconfigure_has_distribution (conf : Config) (geom : geo.Geometry)
    (s : Sampler R) :
  has_distribution s -> has_distribution (snd (reconfigure conf geom s)).
Proof.
  intros Hs. unfold has_distribution.
  destruct (parse_vertex_type (type_ conf)) as [[|]|] eqn:Hp.
  - apply parse_vertex_type_sampled in Hp.
    rewrite (reconfigure_sampled conf geom s Hp).
    destruct (parse_time_type (time_type_ conf)); simpl; intros; discriminate.
  - apply parse_vertex_type_fixed in Hp.
    rewrite (reconfigure_fixed conf geom s Hp). cbv zeta.
    destruct (parse_time_type (time_type_ conf)); simpl; intros; discriminate.
  - rewrite (reconfigure_invalid_type conf geom s Hp). exact Hs.
Qed.

Lemma sample_vertex_pos_has_distribution (geom : geo.Geometry)
    (s : Sampler R) :
  has_distribution s -> has_distribution (snd (sample_vertex_pos geom s)).
Proof.
  intros Hs.
  destruct (sample_vertex_pos_keeps_configuration geom s)
    as (Hk & _ & _ & _ & _ & Hd).
  unfold has_distribution in *. rewrite <- Hk, <- Hd. exact Hs.
Qed.

(** A call returns whenever the drawn index names a TPC of the geometry; so
    it does, under the contract of the discrete distribution, on a sampler
    configured from the geometry it is called with, if that has a TPC at
    all. *)
Lemma sample_vertex_pos_returns (geom : geo.Geometry) (s : Sampler R) :
  discrete_contract R ->
  geom <> [] ->
  (fVertexType s = kSampled -> fTPCDist s = Some (active_masses geom)) ->
  returned (fst (sample_vertex_pos geom s)) = true.
Proof.
  intros Hdisc Hne Hconf.
  destruct (fVertexType s) eqn:Hk.
  - rewrite (sample_vertex_pos_sampled geom s Hk), (Hconf eq_refl).
    cbv zeta. unfold geo.TPC.
    pose proof (Hdisc (active_masses geom) (fTPCEngine s)) as Hi.
    unfold active_masses in Hi at 2. rewrite length_map in Hi.
    destruct (List.nth_error geom _) as [tpc|] eqn:Hn.
    + reflexivity.
    + apply nth_error_None in Hn.
      destruct geom as [|c geom]; [contradiction|]. simpl in *. lia.
  - rewrite (sample_vertex_pos_fixed geom s Hk). reflexivity.
Qed.

End Reachability.

(** Every call on the sampler of the scenario returns. *)
Lemma scenario_call_returns (s : Sampler Lcg.lib) :
  fTPCDist s = Some (active_masses Scenario.two_cells) ->
  returned (fst (sample_vertex_pos Scenario.two_cells s)) = true.
Proof.
  intros Hd. apply sample_vertex_pos_returns.
  - exact Lcg_discrete_contract.
  - discriminate.
  - intros _. exact Hd.
Qed.

(** * More of the code *)

(** ** What reconfigure and the constructor accept *)

Lemma parse_vertex_type_none (type : string) :
  parse_vertex_type type = None <->
  type <> "sampled"%string /\ type <> "fixed"%string.
Proof.
  unfold parse_vertex_type.
  destruct (String.eqb_spec type "sampled") as [->|Hs].
  - split; [discriminate | intros [H _]; now elim H].
  - destruct (String.eqb_spec type "fixed") as [->|Hf].
    + split; [discriminate | intros [_ H]; now elim H].
    + split; auto.
Qed.

Lemma parse_time_type_some (time_type : string) :
  parse_time_type time_type <> None <->
  time_type = "uniform"%string \/ time_type = "gaussian"%string.
Proof.
  unfold parse_time_type.
  destruct (String.eqb_spec time_type "uniform") as [->|Hu].
  - split; [auto | discriminate].
  - destruct (String.eqb_spec time_type "gaussian") as [->|Hg].
    + split; [auto | discriminate].
    + split; [intros H; now elim H | intros [H|H]; contradiction].
Qed.

Section AcceptanceFacts.

Context {R : RandomLib}.

(** X1: reconfigure with a type other than "sampled" and "fixed" throws the
    exception of category "ActiveVolumeVertexSampler <name>" whose message
    quotes the type, before it has looked at time_type and before it has
    written anything: the whole state is as it was. *)
Theorem unknown_type_is_rejected_untouched (conf : Config)
    (geom : geo.Geometry) (s : Sampler R) :
  type_ conf <> "sampled"%string ->
  type_ conf <> "fixed"%string ->
  reconfigure conf geom s =
  (Threw
     (cet_exception ("ActiveVolumeVertexSampler " ++ fGeneratorName s)%string
        ("Invalid vertex type '" ++ type_ conf
         ++ "' requested. Allowed values are 'sampled' and 'fixed'")%string),
   s).
Proof.
  intros Hs Hf.
  apply (reconfigure_invalid_type conf geom s).
  apply parse_vertex_type_none. auto.
Qed.

(** X2: the constructor leaves an object exactly when type is "sampled" or
    "fixed" and time_type is "uniform" or "gaussian"; nothing else in the
    configuration or the geometry can make it fail, and it never runs into
    undefined behaviour. *)
Theorem constructor_returns_iff (conf : Config) (rand_service : NuRandomService)
    (geom : geo.Geometry) (generator_name : string)
    (indeterminate : time_type_t) :
  (returned (ActiveVolumeVertexSampler conf rand_service geom generator_name
               indeterminate) = true
   <-> (type_ conf = "sampled"%string \/ type_ conf = "fixed"%string)
       /\ (time_type_ conf = "uniform"%string
           \/ time_type_ conf = "gaussian"%string))
  /\ undefined (ActiveVolumeVertexSampler conf rand_service geom generator_name
                  indeterminate) = false.
Proof.
  rewrite constructor_result.
  destruct (parse_vertex_type (type_ conf)) as [kv|] eqn:Hv.
  - assert (Htype : type_ conf = "sampled"%string \/ type_ conf = "fixed"%string).
    { destruct kv.
      - left. now apply parse_vertex_type_sampled.
      - right. now apply parse_vertex_type_fixed. }
    destruct (parse_time_type (time_type_ conf)) as [kt|] eqn:Ht; simpl.
    + split; [|reflexivity]. split; [intros _|reflexivity].
      split; [exact Htype|].
      apply parse_time_type_some. rewrite Ht. discriminate.
    + split; [|reflexivity]. split; [discriminate|].
      intros [_ Hk]. apply parse_time_type_some in Hk. now elim Hk.
  - apply parse_vertex_type_none in Hv. destruct Hv as [Hs Hf]. simpl.
    split; [|reflexivity]. split; [discriminate|].
    intros [[H|H] _]; contradiction.
Qed.

(** X3: reconfigure never seeds or advances the engine and never renames the
    generator, whether it returns or throws. *)
Theorem reconfigure_never_touches_engine (conf : Config) (geom : geo.Geometry)
    (s : Sampler R) :
  fTPCEngine (snd (reconfigure conf geom s)) = fTPCEngine s
  /\ fGeneratorName (snd (reconfigure conf geom s)) = fGeneratorName s.
Proof.
  destruct (parse_vertex_type (type_ conf)) as [[|]|] eqn:Hp.
  - apply parse_vertex_type_sampled in Hp.
    rewrite (reconfigure_sampled conf geom s Hp).
    destruct (parse_time_type (time_type_ conf)); split; reflexivity.
  - apply parse_vertex_type_fixed in Hp.
    rewrite (reconfigure_fixed conf geom s Hp). cbv zeta.
    destruct (parse_time_type (time_type_ conf)); split; reflexivity.
  - rewrite (reconfigure_invalid_type conf geom s Hp). split; reflexivity.
Qed.

(** X4: unless the table takes the position (type "fixed"), reconfigure does
    not read it: any other position in its place gives the same outcome and
    the same state. *)
Theorem position_is_read_only_when_taken (conf : Config) (p : array3)
    (geom : geo.Geometry) (s : Sampler R) :
  use_position_ (type_ conf) = false ->
  reconfigure (with_position p conf) geom s = reconfigure conf geom s.
Proof.
  unfold use_position_. intros Hno.
  destruct (parse_vertex_type (type_ conf)) as [[|]|] eqn:Hp.
  - apply parse_vertex_type_sampled in Hp.
    rewrite (reconfigure_sampled conf geom s Hp).
    rewrite (reconfigure_sampled (with_position p conf) geom s Hp).
    reflexivity.
  - apply parse_vertex_type_fixed in Hp. rewrite Hp in Hno. discriminate.
  - rewrite (reconfigure_invalid_type conf geom s Hp).
    rewrite (reconfigure_invalid_type (with_position p conf) geom s Hp).
    reflexivity.
Qed.

(** X5: a configuration for which the table takes any of the parameters
    min_position, max_position and check_active is one the constructor
    rejects, with the exception about the vertex type. *)
Theorem box_parameters_are_never_accepted (conf : Config)
    (rand_service : NuRandomService) (geom : geo.Geometry)
    (generator_name : string) (indeterminate : time_type_t) :
  use_min_position_ (type_ conf) = true
  \/ use_max_position_ (type_ conf) = true
  \/ use_check_active_ (type_ conf) = true ->
  ActiveVolumeVertexSampler conf rand_service geom generator_name indeterminate
  = Threw (invalid_vertex_type generator_name (type_ conf)).
Proof.
  unfold use_min_position_, use_max_position_, use_check_active_.
  intros Hbox.
  assert (Ht : type_ conf = "box"%string)
    by (destruct Hbox as [H|[H|H]]; now apply String.eqb_eq).
  rewrite constructor_result, Ht. reflexivity.
Qed.

End AcceptanceFacts.

(** X1 at a concrete input: the sampler of the scenario, reconfigured with
    type "box" and time_type "exponential". *)
Lemma unknown_type_is_rejected_untouched_witness :
  reconfigure Examples.box Scenario.two_cells Scenario.configured =
  (Threw
     (cet_exception "ActiveVolumeVertexSampler MARLEY_Vertex_Sampler"
        "Invalid vertex type 'box' requested. Allowed values are 'sampled' and 'fixed'"),
   Scenario.configured).
Proof.
  apply (unknown_type_is_rejected_untouched Examples.box Scenario.two_cells
           Scenario.configured); discriminate.
Defined.

(** X4 at a concrete input: sampled mode, with (7, 8, 9) for a position. *)
Lemma position_is_read_only_when_taken_witness :
  reconfigure (with_position (mkArray3 7 8 9) Scenario.sampled_uniform)
    Scenario.flat_geometry Scenario.configured
  = reconfigure Scenario.sampled_uniform Scenario.flat_geometry
      Scenario.configured.
Proof.
  apply (position_is_read_only_when_taken Scenario.sampled_uniform
           (mkArray3 7 8 9) Scenario.flat_geometry Scenario.configured).
  reflexivity.
Defined.

(** X5 at a concrete input: type "box". *)
Lemma box_parameters_are_never_accepted_witness :
  ActiveVolumeVertexSampler (R:=Lcg.lib) Examples.box Scenario.seed42
    Scenario.two_cells Scenario.name kUniform
  = Threw (invalid_vertex_type Scenario.name "box").
Proof.
  apply (box_parameters_are_never_accepted Examples.box Scenario.seed42
           Scenario.two_cells Scenario.name kUniform).
  left. reflexivity.
Defined.

(** ** What a call of sample_vertex_pos can see of the state *)

Section ObservationFacts.

Context {R : RandomLib}.

Lemma same_xyz_SetT (t : double) (p q : TLorentzVector.t) :
  same_xyz p q -> TLorentzVector.SetT t p = TLorentzVector.SetT t q.
Proof.
  intros (Hx & Hy & Hz). unfold TLorentzVector.SetT.
  rewrite Hx, Hy, Hz. reflexivity.
Qed.

(** Calls on states that cannot be told apart end alike and leave states that
    cannot be told apart. *)
Lemma sample_vertex_pos_observably (geom : geo.Geometry) (s1 s2 : Sampler R) :
  observably_equal s1 s2 ->
  fst (sample_vertex_pos geom s1) = fst (sample_vertex_pos geom s2)
  /\ observably_equal (snd (sample_vertex_pos geom s1))
       (snd (sample_vertex_pos geom s2)).
Proof.
  intros (Hk & Htt & Ht0 & Hsig & He & Hm).
  destruct (fVertexType s1) eqn:Hk1.
  - assert (Hk2 : fVertexType s2 = kSampled) by now rewrite <- Hk.
    rewrite (sample_vertex_pos_sampled geom s1 Hk1).
    rewrite (sample_vertex_pos_sampled geom s2 Hk2).
    rewrite <- Hm, <- He, <- Htt, <- Ht0, <- Hsig.
    destruct (fTPCDist s1) as [w|] eqn:Hd.
    + cbv zeta. destruct (geo.TPC geom _) as [tpc|ex|]; simpl;
        (split; [reflexivity|]); unfold observably_equal; simpl;
        repeat split; reflexivity.
    + simpl. split; [reflexivity|]. unfold observably_equal.
      rewrite Hk1, Hd. auto 10.
  - assert (Hk2 : fVertexType s2 = kFixed) by now rewrite <- Hk.
    rewrite (sample_vertex_pos_fixed geom s1 Hk1).
    rewrite (sample_vertex_pos_fixed geom s2 Hk2).
    rewrite <- He, <- Htt, <- Ht0, <- Hsig. cbv zeta. simpl.
    rewrite (same_xyz_SetT _ _ _ Hm).
    split; [reflexivity|]. unfold observably_equal, same_xyz. simpl.
    auto 10.
Qed.

Lemma sample_n_observably (n : nat) (geom : geo.Geometry) (s1 s2 : Sampler R) :
  observably_equal s1 s2 ->
  fst (sample_n n geom s1) = fst (sample_n n geom s2)
  /\ observably_equal (snd (sample_n n geom s1)) (snd (sample_n n geom s2)).
Proof.
  revert s1 s2. induction n as [|n IH]; intros s1 s2 Hobs; simpl.
  - auto.
  - destruct (sample_vertex_pos_observably geom s1 s2 Hobs) as [Ho Hs].
    destruct (sample_vertex_pos geom s1) as [o1 t1].
    destruct (sample_vertex_pos geom s2) as [o2 t2].
    simpl in Ho, Hs. subst o2.
    destruct (IH t1 t2 Hs) as [Hos Hss].
    destruct (sample_n n geom t1) as [os1 u1].
    destruct (sample_n n geom t2) as [os2 u2].
    simpl in *. subst os2. auto.
Qed.

(** However its calls end, a row of calls keeps the configuration, and in
    fixed mode the cached x, y and z. *)
Lemma sample_n_keeps (n : nat) (geom : geo.Geometry) (s : Sampler R) :
  configuration_eq s (snd (sample_n n geom s))
  /\ (fVertexType s = kFixed ->
      same_xyz (fVertexPosition (snd (sample_n n geom s))) (fVertexPosition s)).
Proof.
  revert s. induction n as [|n IH]; intros s; simpl.
  - unfold configuration_eq, same_xyz. auto 10.
  - pose proof (sample_vertex_pos_keeps_configuration geom s) as Hc.
    assert (Hx : fVertexType s = kFixed ->
                 same_xyz (fVertexPosition (snd (sample_vertex_pos geom s)))
                   (fVertexPosition s)).
    { intros Hk. rewrite (sample_vertex_pos_fixed geom s Hk).
      unfold same_xyz. simpl. auto. }
    destruct (sample_vertex_pos geom s) as [o s1]. simpl in Hc, Hx.
    destruct (IH s1) as [Hc1 Hx1].
    destruct (sample_n n geom s1) as [os s2]. simpl in *.
    unfold configuration_eq in *.
    destruct Hc as (H1 & H2 & H3 & H4 & H5 & H6).
    destruct Hc1 as (G1 & G2 & G3 & G4 & G5 & G6).
    split.
    + repeat split; etransitivity; eassumption.
    + intros Hk. specialize (Hx Hk).
      assert (Hk1 : fVertexType s1 = kFixed) by now rewrite <- H1.
      specialize (Hx1 Hk1). unfold same_xyz in *.
      destruct Hx as (A1 & A2 & A3). destruct Hx1 as (B1 & B2 & B3).
      repeat split; etransitivity; eassumption.
Qed.

(** X6: a reconfiguration that returns settles what sample_vertex_pos will
    give from then on: two samplers with the same engine state, whatever else
    they held, give the same sequence of outcomes after the same successful
    reconfigure, over any geometry. *)
Theorem reconfigure_determines_sampling (conf : Config)
    (geom geom' : geo.Geometry) (s1 s2 : Sampler R) (n : nat) :
  fTPCEngine s1 = fTPCEngine s2 ->
  fst (reconfigure conf geom s1) = Returned tt ->
  fst (sample_n n geom' (snd (reconfigure conf geom s1)))
  = fst (sample_n n geom' (snd (reconfigure conf geom s2))).
Proof.
  intros He Hret. apply sample_n_observably.
  unfold observably_equal.
  destruct (parse_vertex_type (type_ conf)) as [[|]|] eqn:Hp.
  - apply parse_vertex_type_sampled in Hp.
    rewrite (reconfigure_sampled conf geom s1 Hp) in *.
    rewrite (reconfigure_sampled conf geom s2 Hp).
    destruct (parse_time_type (time_type_ conf)); [|discriminate].
    simpl. auto 10.
  - apply parse_vertex_type_fixed in Hp.
    rewrite (reconfigure_fixed conf geom s1 Hp) in *.
    rewrite (reconfigure_fixed conf geom s2 Hp).
    cbv zeta in *.
    destruct (parse_time_type (time_type_ conf)); [|discriminate].
    unfold same_xyz. simpl. auto 10.
  - rewrite (reconfigure_invalid_type conf geom s1 Hp) in Hret. discriminate.
Qed.

(** X7: the seeder rewinds the sampler: after any number of calls, seeding
    again with the seed the sampler was seeded with makes the following calls
    end as the calls right after the first seeding did. *)
Theorem reseeding_replays (lar_seed : Z) (geom0 geom : geo.Geometry)
    (s : Sampler R) (n m : nat) :
  fst (sample_n m geom
         (seeder lar_seed (snd (sample_n n geom0 (seeder lar_seed s)))))
  = fst (sample_n m geom (seeder lar_seed s)).
Proof.
  apply sample_n_observably.
  destruct (sample_n_keeps n geom0 (seeder lar_seed s))
    as [(H1 & H2 & _ & H4 & H5 & H6) Hx].
  set (s0 := seeder lar_seed s) in *.
  set (s' := snd (sample_n n geom0 s0)) in *.
  unfold observably_equal.
  change (fVertexType (seeder lar_seed s')) with (fVertexType s').
  change (fTimeType (seeder lar_seed s')) with (fTimeType s').
  change (fT0 (seeder lar_seed s')) with (fT0 s').
  change (fSigmaT (seeder lar_seed s')) with (fSigmaT s').
  change (fTPCDist (seeder lar_seed s')) with (fTPCDist s').
  change (fVertexPosition (seeder lar_seed s')) with (fVertexPosition s').
  rewrite <- H1, <- H2, <- H4, <- H5, <- H6.
  repeat split.
  destruct (fVertexType s0) eqn:Hk.
  - reflexivity.
  - apply Hx. reflexivity.
Qed.

End ObservationFacts.

(** X6 at a concrete input: the sampler of the scenario, and the same after a
    reconfiguration to fixed mode over no geometry, both reconfigured to
    sampled mode over the two cells. *)
Lemma reconfigure_determines_sampling_witness :
  fst (sample_n 3 Scenario.two_cells
         (snd (reconfigure Scenario.sampled_uniform Scenario.two_cells
                 Scenario.configured)))
  = fst (sample_n 3 Scenario.two_cells
           (snd (reconfigure Scenario.sampled_uniform Scenario.two_cells
                   (snd (reconfigure Scenario.fixed_123 []
                           Scenario.configured))))).
Proof.
  apply (reconfigure_determines_sampling Scenario.sampled_uniform
           Scenario.two_cells Scenario.two_cells Scenario.configured
           (snd (reconfigure Scenario.fixed_123 [] Scenario.configured)) 3);
    reflexivity.
Defined.

(** ** Sequences of calls *)

Section CallSequences.

Context {R : RandomLib}.

Lemma reconfigure_is_defined (conf : Config) (geom : geo.Geometry)
    (s : Sampler R) :
  undefined (fst (reconfigure conf geom s)) = false.
Proof.
  destruct (parse_vertex_type (type_ conf)) as [[|]|] eqn:Hp.
  - apply parse_vertex_type_sampled in Hp.
    rewrite (reconfigure_sampled conf geom s Hp).
    destruct (parse_time_type (time_type_ conf)); reflexivity.
  - apply parse_vertex_type_fixed in Hp.
    rewrite (reconfigure_fixed conf geom s Hp). cbv zeta.
    destruct (parse_time_type (time_type_ conf)); reflexivity.
  - rewrite (reconfigure_invalid_type conf geom s Hp). reflexivity.
Qed.

Lemma sample_vertex_pos_is_defined (geom : geo.Geometry) (s : Sampler R) :
  has_distribution s ->
  undefined (fst (sample_vertex_pos geom s)) = false.
Proof.
  intros Hd. destruct (fVertexType s) eqn:Hk.
  - rewrite (sample_vertex_pos_sampled geom s Hk).
    destruct (fTPCDist s) as [w|] eqn:Hw; [|now elim (Hd Hk)].
    cbv zeta. unfold geo.TPC.
    destruct (List.nth_error geom _); reflexivity.
  - rewrite (sample_vertex_pos_fixed geom s Hk). reflexivity.
Qed.

Lemma any_undefined_never (calls : list call) (s : Sampler R) :
  has_distribution s -> any_undefined calls s = false.
Proof.
  revert s. induction calls as [|c calls IH]; intros s Hd; simpl.
  - reflexivity.
  - destruct c as [conf geom|geom]; simpl.
    + pose proof (reconfigure_is_defined conf geom s) as Hu.
      pose proof (reconfigure_has_distribution conf geom s Hd) as Hd'.
      destruct (reconfigure conf geom s) as [o s']. simpl in *.
      rewrite Hu. simpl. now apply IH.
    + pose proof (sample_vertex_pos_is_defined geom s Hd) as Hu.
      pose proof (sample_vertex_pos_has_distribution geom s Hd) as Hd'.
      destruct (sample_vertex_pos geom s) as [o s']. simpl in *.
      rewrite Hu. simpl. now apply IH.
Qed.

(** X8: on a sampler that its constructor has left, no sequence of calls of
    reconfigure and sample_vertex_pos, over whatever configurations and
    geometries and with the exceptions caught, ever dereferences the null
    [fTPCDist]: in sampled mode the distribution is always there. *)
Theorem null_distribution_is_never_dereferenced (conf : Config)
    (rand_service : NuRandomService) (geom : geo.Geometry)
    (generator_name : string) (indeterminate : time_type_t) (s : Sampler R)
    (calls : list call) :
  ActiveVolumeVertexSampler conf rand_service geom generator_name indeterminate
  = Returned s ->
  any_undefined calls s = false.
Proof.
  intros Hs. apply any_undefined_never.
  exact (constructor_has_distribution conf rand_service geom generator_name
           indeterminate s Hs).
Qed.

Lemma sample_n_length (n : nat) (geom : geo.Geometry) (s : Sampler R) :
  List.length (fst (sample_n n geom s)) = n.
Proof.
  revert s. induction n as [|n IH]; intros s; simpl.
  - reflexivity.
  - destruct (sample_vertex_pos geom s) as [o s1].
    specialize (IH s1). destruct (sample_n n geom s1) as [os s2].
    simpl in *. now rewrite IH.
Qed.

(** X9: whatever way a call ends, the stored vertex is the last one returned:
    a call that returns stores the vertex it returns, and a call that does
    not return leaves the stored vertex as it was. *)
Theorem stored_vertex_is_last_returned (geom : geo.Geometry) (s : Sampler R) :
  match fst (sample_vertex_pos geom s) with
  | Returned v => fVertexPosition (snd (sample_vertex_pos geom s)) = v
  | _ =>
      fVertexPosition (snd (sample_vertex_pos geom s)) = fVertexPosition s
  end.
Proof.
  destruct (fVertexType s) eqn:Hk.
  - rewrite (sample_vertex_pos_sampled geom s Hk).
    destruct (fTPCDist s) as [w|]; [|reflexivity].
    cbv zeta. destruct (geo.TPC geom _); reflexivity.
  - rewrite (sample_vertex_pos_fixed geom s Hk). reflexivity.
Qed.

Lemma sample_n_returns (n : nat) (geom : geo.Geometry) (s : Sampler R) :
  discrete_contract R ->
  geom <> [] ->
  (fVertexType s = kSampled -> fTPCDist s = Some (active_masses geom)) ->
  List.Forall (fun o => returned o = true) (fst (sample_n n geom s)).
Proof.
  intros Hdisc Hne. revert s.
  induction n as [|n IH]; intros s Hconf; simpl.
  - constructor.
  - pose proof (sample_vertex_pos_returns geom s Hdisc Hne Hconf) as Hret.
    destruct (sample_vertex_pos_keeps_configuration geom s)
      as (Hk & _ & _ & _ & _ & Hd).
    destruct (sample_vertex_pos geom s) as [o s1]. simpl in *.
    assert (Hconf1 : fVertexType s1 = kSampled ->
                     fTPCDist s1 = Some (active_masses geom))
      by (rewrite <- Hk, <- Hd; exact Hconf).
    specialize (IH s1 Hconf1).
    destruct (sample_n n geom s1) as [os s2]. simpl in *.
    constructor; assumption.
Qed.

(** X10: over a geometry with at least one TPC, every call of a run returns
    a vertex, in either mode: the index drawn always names a TPC of the
    geometry the weights were taken from (the discrete distribution giving
    an index below the number of its weights). *)
Theorem every_call_of_a_run_returns (conf : Config)
    (rand_service : NuRandomService) (geom : geo.Geometry)
    (generator_name : string) (indeterminate : time_type_t) (n : nat)
    (outs : list (outcome TLorentzVector.t)) :
  discrete_contract R ->
  geom <> [] ->
  run conf rand_service geom generator_name indeterminate n = Returned outs ->
  List.Forall (fun o => returned o = true) outs.
Proof.
  intros Hdisc Hne Hrun. unfold run in Hrun.
  rewrite constructor_result in Hrun.
  destruct (parse_vertex_type (type_ conf)) as [kv|]; [|discriminate].
  destruct (parse_time_type (time_type_ conf)) as [kt|]; [|discriminate].
  inversion Hrun; subst; clear Hrun.
  apply sample_n_returns; trivial.
  simpl. intros ->. reflexivity.
Qed.

Lemma sample_n_over_no_geometry (n : nat) (s : Sampler R) :
  fVertexType s = kSampled ->
  fTPCDist s <> None ->
  List.Forall (fun o => threw o = true) (fst (sample_n n [] s)).
Proof.
  revert s. induction n as [|n IH]; intros s Hk Hd; simpl.
  - constructor.
  - destruct (sample_vertex_pos_keeps_configuration [] s)
      as (Hk' & _ & _ & _ & _ & Hd').
    assert (Hthrew : threw (fst (sample_vertex_pos [] s)) = true).
    { rewrite (sample_vertex_pos_sampled [] s Hk).
      destruct (fTPCDist s) as [w|]; [|now elim Hd].
      cbv zeta. unfold geo.TPC.
      destruct (fst (discrete_distribution w (fTPCEngine s))); reflexivity. }
    destruct (sample_vertex_pos [] s) as [o s1]. simpl in *.
    assert (Hk1 : fVertexType s1 = kSampled) by now rewrite <- Hk'.
    assert (Hd1 : fTPCDist s1 <> None) by now rewrite <- Hd'.
    specialize (IH s1 Hk1 Hd1).
    destruct (sample_n n [] s1) as [os s2]. simpl in *.
    constructor; assumption.
Qed.

(** X11: over a geometry without any TPC, construction in sampled mode
    succeeds, with no weight at all, and then every call of sample_vertex_pos
    throws, whatever the engine and the distributions are: the index drawn
    cannot name a TPC. *)
Theorem no_tpc_every_call_throws (conf : Config)
    (rand_service : NuRandomService) (generator_name : string)
    (indeterminate : time_type_t) (n : nat) :
  type_ conf = "sampled"%string ->
  parse_time_type (time_type_ conf) <> None ->
  exists outs,
    run conf rand_service [] generator_name indeterminate n = Returned outs
    /\ List.length outs = n
    /\ List.Forall (fun o => threw o = true) outs.
Proof.
  intros Ht Hk. unfold run. rewrite constructor_result, Ht.
  destruct (parse_time_type (time_type_ conf)) as [kt|]; [|contradiction].
  simpl. eexists. split; [reflexivity|]. split.
  - apply sample_n_length.
  - apply sample_n_over_no_geometry; [reflexivity | discriminate].
Qed.

(** The seed sequence holds the seed modulo 2^32. *)
Lemma seed_seq_of_cast (seed : Z) :
  seed_seq [static_cast_uint_fast64 seed] = [Z.modulo seed (2 ^ 32)].
Proof.
  unfold seed_seq, static_cast_uint_fast64. cbn [List.map]. f_equal.
  rewrite (Z.mod_eq seed (2 ^ 64)) by (vm_compute; discriminate).
  replace (seed - 2 ^ 64 * (seed / 2 ^ 64))%Z
    with (seed + (- (2 ^ 32 * (seed / 2 ^ 64))) * 2 ^ 32)%Z
    by (change (2 ^ 64)%Z with (2 ^ 32 * 2 ^ 32)%Z; ring).
  apply Z.mod_add. vm_compute. discriminate.
Qed.

(** X12: of the seed the service hands back, only the low 32 bits reach the
    engine: two runs whose seeds are equal modulo 2^32 give the same sequence
    of outcomes. *)
Theorem seed_counts_modulo_2_32 (conf : Config) (geom : geo.Geometry)
    (generator_name : string) (seed seed' : Z) (calls calls' : list Z)
    (indeterminate indeterminate' : time_type_t) (n : nat) :
  Z.modulo seed (2 ^ 32) = Z.modulo seed' (2 ^ 32) ->
  run conf (mkService seed calls) geom generator_name indeterminate n
  = run conf (mkService seed' calls') geom generator_name indeterminate' n.
Proof.
  intros Hseed. unfold run. rewrite !constructor_result.
  cbn [registered_seed]. rewrite !seed_seq_of_cast, Hseed. reflexivity.
Qed.

End CallSequences.

(** X8 at a concrete input: the calls of [Examples.some_calls] on the sampler
    of the scenario. *)
Lemma null_distribution_is_never_dereferenced_witness :
  any_undefined Examples.some_calls Scenario.configured = false.
Proof.
  apply (null_distribution_is_never_dereferenced Scenario.sampled_uniform
           Scenario.seed42 Scenario.two_cells Scenario.name kGaussian
           Scenario.configured Examples.some_calls).
  exact scenario_configured_is_constructed.
Defined.

(** X10 at a concrete input: four calls of the run of the scenario. *)
Lemma every_call_of_a_run_returns_witness :
  List.Forall (fun o => returned o = true)
    (fst (sample_n 4 Scenario.two_cells Scenario.configured)).
Proof.
  apply (every_call_of_a_run_returns Scenario.sampled_uniform Scenario.seed42
           Scenario.two_cells Scenario.name kUniform 4
           (fst (sample_n 4 Scenario.two_cells Scenario.configured))
           Lcg_discrete_contract).
  - discriminate.
  - vm_compute. reflexivity.
Defined.

(** X11 at a concrete input: the configuration of the scenario over no
    geometry, three calls. *)
Lemma no_tpc_every_call_throws_witness :
  exists outs,
    run (R:=Lcg.lib) Scenario.sampled_uniform Scenario.seed42 [] Scenario.name
      kUniform 3 = Returned outs
    /\ List.length outs = 3%nat
    /\ List.Forall (fun o => threw o = true) outs.
Proof.
  apply (no_tpc_every_call_throws Scenario.sampled_uniform Scenario.seed42
           Scenario.name kUniform 3).
  - reflexivity.
  - vm_compute. discriminate.
Defined.

(** X12 at a concrete input: the seeds 42 and 42 + 2^32. *)
Lemma seed_counts_modulo_2_32_witness :
  run (R:=Lcg.lib) Scenario.sampled_uniform Scenario.seed42 Scenario.two_cells
    Scenario.name kUniform 4
  = run (R:=Lcg.lib) Scenario.sampled_uniform Examples.seed42_high
      Scenario.two_cells Scenario.name kUniform 4.
Proof.
  apply (seed_counts_modulo_2_32 Scenario.sampled_uniform Scenario.two_cells
           Scenario.name 42 (42 + 2 ^ 32) [42%Z] [] kUniform kUniform 4).
  vm_compute. reflexivity.
Defined.

(** ** Where and when the vertices of a run are *)

Section RunBounds.

Context {R : RandomLib}.
Hypothesis uniform_ok : uniform_real_contract R.

(** X13: under the uniform law, when the interval from T0 - SigmaT to
    T0 + SigmaT is within the precondition of the uniform distribution
    (ordered, of finite length), the time of every vertex returned lies in
    it, in either vertex mode. *)
Theorem uniform_time_within_spread (geom : geo.Geometry) (s s' : Sampler R)
    (v : TLorentzVector.t) :
  fTimeType s = kUniform ->
  axis_ok (fT0 s - fSigmaT s) (fT0 s + fSigmaT s) = true ->
  sample_vertex_pos geom s = (Returned v, s') ->
  within (fT0 s - fSigmaT s) (fT0 s + fSigmaT s) (TLorentzVector.fE v).
Proof.
  intros Hk Hok Hcall.
  destruct (returned_time_is_drawn geom s s' v Hcall) as [e ->].
  rewrite Hk. simpl. now apply uniform_ok.
Qed.

Lemma sample_vertex_pos_inside (geom : geo.Geometry) (s s' : Sampler R)
    (v : TLorentzVector.t) :
  List.Forall (fun tpc => box_ok tpc = true) geom ->
  fVertexType s = kSampled ->
  sample_vertex_pos geom s = (Returned v, s') ->
  List.Exists (fun tpc => inside tpc v) geom.
Proof.
  intros Hboxes Hk Hcall.
  rewrite (sample_vertex_pos_sampled geom s Hk) in Hcall.
  destruct (fTPCDist s) as [w|]; [|discriminate].
  cbv zeta in Hcall. unfold geo.TPC in Hcall.
  destruct (List.nth_error geom _) as [tpc|] eqn:Hn; [|discriminate].
  inversion Hcall; subst; clear Hcall.
  apply nth_error_In in Hn.
  apply Exists_exists. exists tpc. split; [exact Hn|].
  rewrite Forall_forall in Hboxes. specialize (Hboxes tpc Hn).
  unfold box_ok in Hboxes.
  apply andb_prop in Hboxes. destruct Hboxes as [Hxy Hz].
  apply andb_prop in Hxy. destruct Hxy as [Hx Hy].
  unfold inside. simpl.
  repeat split; now apply uniform_ok.
Qed.

Lemma sample_n_inside (n : nat) (geom : geo.Geometry) (s : Sampler R) :
  List.Forall (fun tpc => box_ok tpc = true) geom ->
  fVertexType s = kSampled ->
  List.Forall
    (fun o => forall v, o = Returned v ->
                        List.Exists (fun tpc => inside tpc v) geom)
    (fst (sample_n n geom s)).
Proof.
  intros Hboxes. revert s. induction n as [|n IH]; intros s Hk; simpl.
  - constructor.
  - destruct (sample_vertex_pos_keeps_configuration geom s) as (Hk' & _).
    pose proof (sample_vertex_pos_inside geom s) as Hin.
    destruct (sample_vertex_pos geom s) as [o s1]. simpl in *.
    assert (Hk1 : fVertexType s1 = kSampled) by now rewrite <- Hk'.
    specialize (IH s1 Hk1).
    destruct (sample_n n geom s1) as [os s2]. simpl in *.
    constructor; [|exact IH].
    intros v ->. now apply (Hin s1 v).
Qed.

(** X14: in sampled mode every vertex that a run returns lies in the box of
    one of the TPCs of the geometry, on all three axes at once, provided each
    TPC has an ordered box of finite extent. *)
Theorem sampled_vertices_are_inside_a_tpc (conf : Config)
    (rand_service : NuRandomService) (geom : geo.Geometry)
    (generator_name : string) (indeterminate : time_type_t) (n : nat)
    (outs : list (outcome TLorentzVector.t)) :
  List.Forall (fun tpc => box_ok tpc = true) geom ->
  type_ conf = "sampled"%string ->
  run conf rand_service geom generator_name indeterminate n = Returned outs ->
  List.Forall
    (fun o => forall v, o = Returned v ->
                        List.Exists (fun tpc => inside tpc v) geom)
    outs.
Proof.
  intros Hboxes Ht Hrun. unfold run in Hrun.
  rewrite constructor_result, Ht in Hrun.
  destruct (parse_time_type (time_type_ conf)) as [kt|]; [|discriminate].
  simpl in Hrun. inversion Hrun; subst; clear Hrun.
  apply sample_n_inside; [exact Hboxes | reflexivity].
Qed.

End RunBounds.

Section ReconfigureTwice.

Context {R : RandomLib}.

(** X15: reconfiguring twice in a row with the same table over the same
    geometry is the same as reconfiguring once: the second call ends as the
    first did, in the state the first left, also when they throw. *)
Theorem reconfigure_twice_is_once (conf : Config) (geom : geo.Geometry)
    (s : Sampler R) :
  reconfigure conf geom (snd (reconfigure conf geom s))
  = reconfigure conf geom s.
Proof.
  destruct (parse_vertex_type (type_ conf)) as [[|]|] eqn:Hp.
  - apply parse_vertex_type_sampled in Hp.
    rewrite !(reconfigure_sampled conf geom _ Hp).
    destruct (parse_time_type (time_type_ conf)); reflexivity.
  - apply parse_vertex_type_fixed in Hp.
    rewrite !(reconfigure_fixed conf geom _ Hp). cbv zeta.
    destruct (parse_time_type (time_type_ conf)); reflexivity.
  - rewrite !(reconfigure_invalid_type conf geom _ Hp). reflexivity.
Qed.

End ReconfigureTwice.

(** X13 at a concrete input: the first call on the sampler of the scenario
    (T0 = 5, SigmaT = 1) returns the time 4. *)
Lemma uniform_time_within_spread_witness :
  within (5 - 1) (5 + 1) 4.
Proof.
  assert (Hcall :
    sample_vertex_pos Scenario.two_cells Scenario.configured
    = (Returned (TLorentzVector.mk 110 10 10 4),
       snd (sample_vertex_pos Scenario.two_cells Scenario.configured)))
    by (vm_compute; reflexivity).
  exact (uniform_time_within_spread Lcg_uniform_real_contract
           Scenario.two_cells Scenario.configured _
           (TLorentzVector.mk 110 10 10 4) eq_refl eq_refl Hcall).
Defined.

(** X14 at a concrete input: four calls of the run of the scenario. *)
Lemma sampled_vertices_are_inside_a_tpc_witness :
  List.Forall
    (fun o => forall v, o = Returned v ->
                        List.Exists (fun tpc => inside tpc v)
                          Scenario.two_cells)
    (fst (sample_n 4 Scenario.two_cells Scenario.configured)).
Proof.
  apply (sampled_vertices_are_inside_a_tpc Lcg_uniform_real_contract
           Scenario.sampled_uniform Scenario.seed42 Scenario.two_cells
           Scenario.name kUniform 4).
  - repeat constructor.
  - reflexivity.
  - vm_compute. reflexivity.
Defined.
